(** * Vehicle registration dashboard: the data pipeline of [app.py]

    A shallow embedding of the mock-data generator ([load_data]) and of the
    filter and aggregation steps of [main], with the properties the
    specification states about them.

    Numbers are modelled as the program has them:
    - the [registrations] column is an int64 column, so its sums wrap
      around ([Int64]);
    - percentages and the generator's scaling factor are IEEE 754 binary64
      values ([F64], on the Standard Library's [SpecFloat]);
    - Python's own integers (the generator's [base], [int(...)], [max])
      are unbounded, hence plain [Z]. *)

From Stdlib Require Import ZArith List String Ascii Bool Lia Sorted.
From Stdlib Require Import DecimalString Floats.SpecFloat.
Import ListNotations.
Local Open Scope Z_scope.

Set Implicit Arguments.

(* ================================================================= *)
(** * Numbers *)

(** ** binary64 *)
Module F64.

Definition float : Type := spec_float.
Definition prec : Z := 53.
Definition emax : Z := 1024.

Definition NaN : float := S754_nan.

(** Conversion of an integer to the nearest float (ties to even), as
    Python and numpy do when an [int] meets a float. *)
Definition of_int (z : Z) : float := binary_normalize prec emax z 0 false.

Definition add : float -> float -> float := SFadd prec emax.
Definition sub : float -> float -> float := SFsub prec emax.
Definition mul : float -> float -> float := SFmul prec emax.
Definition div : float -> float -> float := SFdiv prec emax.
Definition ltb : float -> float -> bool := SFltb.

Definition is_nan (x : float) : bool :=
  match x with S754_nan => true | _ => false end.

Definition is_finite (x : float) : bool :=
  match x with S754_zero _ | S754_finite _ _ _ => true | _ => false end.

(** The decimal literal [n / 10^k]: a correctly rounded division of two
    exactly representable integers is the float nearest to the decimal. *)
Definition lit (n d : Z) : float := div (of_int n) (of_int d).

(** Python's [int(x)]: truncation toward zero; raises on NaN and on the
    infinities ([None]). *)
Definition py_int (x : float) : option Z :=
  match x with
  | S754_zero _ => Some 0
  | S754_finite s m e =>
      let a := Z.shiftl (Z.pos m) e in Some (if s then - a else a)
  | S754_infinity _ | S754_nan => None
  end.

(** Python's [round(x)]: the nearest integer, ties to even. *)
Definition py_round (x : float) : option Z :=
  match x with
  | S754_zero _ => Some 0
  | S754_finite s m e =>
      let a :=
        if 0 <=? e then Z.shiftl (Z.pos m) e
        else
          let q := Z.shiftr (Z.pos m) (- e) in
          let r := Z.pos m - Z.shiftl q (- e) in
          let half := Z.shiftl 1 (- e - 1) in
          match r ?= half with
          | Lt => q
          | Gt => q + 1
          | Eq => if Z.even q then q else q + 1
          end in
      Some (if s then - a else a)
  | S754_infinity _ | S754_nan => None
  end.

End F64.

(** ** int64, the dtype of the [registrations] column *)
Module Int64.

Definition modulus : Z := 2 ^ 64.
Definition half : Z := 2 ^ 63.

Definition wrap (z : Z) : Z := (z + half) mod modulus - half.

Definition add (a b : Z) : Z := wrap (a + b).

(** [Series.sum()] on an int64 column: accumulation in int64. *)
Definition sum (l : list Z) : Z := fold_left add l 0.

End Int64.

(* ================================================================= *)
(** * Data model *)

(** A calendar date at day resolution (a pandas [Timestamp] at midnight). *)
Record Date := mkDate { dyear : Z; dmonth : Z; dday : Z }.

Definition date_compare (a b : Date) : comparison :=
  match dyear a ?= dyear b with
  | Eq => match dmonth a ?= dmonth b with
          | Eq => dday a ?= dday b
          | c => c
          end
  | c => c
  end.

(** [a <= b] on timestamps. *)
Definition date_leb (a b : Date) : bool :=
  match date_compare a b with Gt => false | _ => true end.

(** One row of the data frame, with the columns [load_data] writes. *)
Record Row := mkRow {
  date : Date;
  year : Z;
  quarter : string;
  month : Z;
  category : string;
  manufacturer : string;
  registrations : Z
}.

Definition DataFrame := list Row.

(* ================================================================= *)
(** * The pandas operations [main] uses *)
Module Pandas.

Section Series.
Context {A : Type}.

(** [df[col]]: a column of the frame. *)
Definition column (col : Row -> A) (df : DataFrame) : list A := map col df.

(** [s >= v], [s <= v], [s == v]: element-wise comparison with a scalar. *)
Definition cmp_scalar (test : A -> bool) (s : list A) : list bool :=
  map test s.

(** [a & b] on boolean series over the same index. *)
Fixpoint and_series (a b : list bool) : list bool :=
  match a, b with
  | x :: a', y :: b' => (x && y) :: and_series a' b'
  | _, _ => []
  end.

(** [df[mask]]: the rows whose mask entry is [True], in frame order. *)
Fixpoint bool_index (df : list A) (mask : list bool) : list A :=
  match df, mask with
  | r :: df', b :: mask' =>
      if b then r :: bool_index df' mask' else bool_index df' mask'
  | _, _ => []
  end.
End Series.

(** [v in values] for strings. *)
Definition mem (v : string) (values : list string) : bool :=
  existsb (String.eqb v) values.

(** [s.isin(values)]. *)
Definition isin (s : list string) (values : list string) : list bool :=
  map (fun v => mem v values) s.

(** [s.unique()]: the distinct values in order of first appearance. *)
Definition unique (s : list string) : list string :=
  fold_left (fun seen v => if mem v seen then seen else seen ++ [v]) s [].

(** [s.min()] and [s.max()] on a datetime column; [None] is [NaT], the
    result on an empty column. *)
Definition date_min2 (a b : Date) : Date := if date_leb a b then a else b.
Definition date_max2 (a b : Date) : Date := if date_leb a b then b else a.

Definition series_min (s : list Date) : option Date :=
  match s with
  | [] => None
  | d :: s' => Some (fold_left date_min2 s' d)
  end.

Definition series_max (s : list Date) : option Date :=
  match s with
  | [] => None
  | d :: s' => Some (fold_left date_max2 s' d)
  end.

End Pandas.

(* ================================================================= *)
(** * [main]: the filter *)

(** Lines 78-83: the conjunction of the four masks, then boolean indexing.
    [date_range] is the pair the date widget returns. *)
Definition filter_mask (df : DataFrame) (date_range : Date * Date)
    (categories manufacturers : list string) : list bool :=
  Pandas.and_series
    (Pandas.and_series
      (Pandas.and_series
        (Pandas.cmp_scalar (fun d => date_leb (fst date_range) d)
                           (Pandas.column date df))
        (Pandas.cmp_scalar (fun d => date_leb d (snd date_range))
                           (Pandas.column date df)))
      (Pandas.isin (Pandas.column category df) categories))
    (Pandas.isin (Pandas.column manufacturer df) manufacturers).

Definition filtered_df (df : DataFrame) (date_range : Date * Date)
    (categories manufacturers : list string) : DataFrame :=
  Pandas.bool_index df (filter_mask df date_range categories manufacturers).

(** The widget defaults of lines 58-75: the full extent of the data, for
    a frame without missing cells whose dates are calendar dates
    ([Raw.default_date_range] below is the same on any frame). *)
Definition default_categories (df : DataFrame) : list string :=
  Pandas.unique (Pandas.column category df).

Definition default_manufacturers (df : DataFrame) : list string :=
  Pandas.unique (Pandas.column manufacturer df).

Definition default_date_range (df : DataFrame) : option (Date * Date) :=
  match Pandas.series_min (Pandas.column date df),
        Pandas.series_max (Pandas.column date df) with
  | Some lo, Some hi => Some (lo, hi)
  | _, _ => None
  end.

(** The row predicate of the specification's filter contract. *)
Definition keeps (date_range : Date * Date) (categories manufacturers : list string)
    (r : Row) : bool :=
  date_leb (fst date_range) (date r) && date_leb (date r) (snd date_range)
  && Pandas.mem (category r) categories
  && Pandas.mem (manufacturer r) manufacturers.

(* ================================================================= *)
(** * [main]: metrics and aggregations *)

Module Pandas_groupby.
Section GroupBy.
Context {K : Type}.
Variable cmp : K -> K -> comparison.

(** One row enters the table of running group sums, which is kept in
    ascending key order ([groupby] sorts its groups by key). *)
Fixpoint accumulate (k : K) (v : Z) (groups : list (K * Z)) : list (K * Z) :=
  match groups with
  | [] => [(k, Int64.add 0 v)]
  | (k', s) :: rest =>
      match cmp k k' with
      | Lt => (k, Int64.add 0 v) :: groups
      | Eq => (k', Int64.add s v) :: rest
      | Gt => (k', s) :: accumulate k v rest
      end
  end.

(** [df.groupby(key)['registrations'].sum().reset_index()] on a frame
    without missing keys: every row has a group.  [Raw.groupby_sum]
    below is the same on any frame, where a row with a missing key has
    none. *)
Definition groupby_sum (key : Row -> K) (df : DataFrame) : list (K * Z) :=
  fold_left (fun groups r => accumulate (key r) (registrations r) groups) df [].
End GroupBy.
End Pandas_groupby.

(** Line 90. *)
Definition total_reg (df : DataFrame) : Z :=
  Int64.sum (Pandas.column registrations df).

(** [filtered_df[filtered_df['year'] == y]['registrations'].sum()]. *)
Definition year_total (y : Z) (df : DataFrame) : Z :=
  Int64.sum (Pandas.column registrations
    (Pandas.bool_index df (Pandas.cmp_scalar (fun v => v =? y) (Pandas.column year df)))).

(** Lines 94-95: the quotient of two [numpy.int64] totals is a binary64
    division, which does not raise on a zero divisor. *)
Definition yoy_growth (df : DataFrame) : F64.float :=
  F64.mul
    (F64.sub (F64.div (F64.of_int (year_total 2023 df))
                      (F64.of_int (year_total 2022 df)))
             (F64.of_int 1))
    (F64.of_int 100).

(** [strftime('%B %Y')]. *)
Definition month_name (m : Z) : string :=
  nth (Z.to_nat (m - 1))
      ["January"; "February"; "March"; "April"; "May"; "June"; "July";
       "August"; "September"; "October"; "November"; "December"]%string
      ""%string.

Definition str (z : Z) : string := NilZero.string_of_int (Z.to_int z).

Definition strftime_B_Y (d : Date) : string :=
  (month_name (dmonth d) ++ " " ++ str (dyear d))%string.

(** Line 99: [max()] of the date column ([NaT] when it is empty), then
    [strftime], which raises on [NaT]. *)
Definition latest_date (df : DataFrame) : option Date :=
  Pandas.series_max (Pandas.column date df).

Definition latest_month (df : DataFrame) : option string :=
  option_map strftime_B_Y (latest_date df).

(** Lines 107-108: totals per year and their percentage change. *)
Record YoyRow := mkYoy {
  yoy_year : Z;
  yoy_registrations : Z;
  growth_pct : F64.float
}.

(** [s.shift(1)] on a float series. *)
Definition shift (s : list F64.float) : list F64.float :=
  match s with
  | [] => []
  | _ :: _ => F64.NaN :: removelast s
  end.

Fixpoint div_series (a b : list F64.float) : list F64.float :=
  match a, b with
  | x :: a', y :: b' => F64.div x y :: div_series a' b'
  | _, _ => []
  end.

(** [s.pct_change()]: [s / s.shift(1) - 1]. *)
Definition pct_change (s : list Z) : list F64.float :=
  let data := map F64.of_int s in
  map (fun q => F64.sub q (F64.of_int 1)) (div_series data (shift data)).

Definition yoy_totals (df : DataFrame) : list (Z * Z) :=
  Pandas_groupby.groupby_sum Z.compare year df.

Definition yoy_df (df : DataFrame) : list YoyRow :=
  let totals := yoy_totals df in
  let growth := map (fun p => F64.mul p (F64.of_int 100))
                    (pct_change (map snd totals)) in
  map (fun '((y, t), g) => mkYoy y t g) (combine totals growth).

(** Line 115. *)
Definition manu_share (df : DataFrame) : list (string * Z) :=
  Pandas_groupby.groupby_sum String.compare manufacturer df.

(** Line 122: the key is the pair (date, category). *)
Definition date_category_compare (a b : Date * string) : comparison :=
  match date_compare (fst a) (fst b) with
  | Eq => String.compare (snd a) (snd b)
  | c => c
  end.

Definition monthly (df : DataFrame) : list ((Date * string) * Z) :=
  Pandas_groupby.groupby_sum date_category_compare
    (fun r => (date r, category r)) df.

(** The total of a grouped frame's [registrations] column. *)
Definition group_total {K : Type} (groups : list (K * Z)) : Z :=
  Int64.sum (map snd groups).

(* ================================================================= *)
(** * [load_data]: the mock-data generator *)

(** What the generator takes from numpy: the global random state with its
    two draws, and the sine. *)
Class NumPy := {
  rng : Type;
  randint : Z -> Z -> rng -> Z * rng;
  normal : F64.float -> F64.float -> rng -> F64.float * rng;
  np_sin : F64.float -> F64.float
}.

(** [randint(low, high)] draws from the half-open interval. *)
Class NumPySpec (np : NumPy) : Prop := {
  randint_range : forall lo hi g, lo < hi -> lo <= fst (randint lo hi g) < hi
}.

(** [np.pi], the binary64 value 0x1.921fb54442d18p+1. *)
Definition np_pi : F64.float := S754_finite false 7074237752028440 (-51).

(** Computations that draw random numbers and may raise. *)
Module Gen.
Section Monad.
Context {np : NumPy}.

Definition M (A : Type) : Type := rng -> option (A * rng).

Definition ret {A} (a : A) : M A := fun g => Some (a, g).

Definition bind {A B} (m : M A) (k : A -> M B) : M B :=
  fun g => match m g with
           | Some (a, g') => k a g'
           | None => None
           end.

(** A pure step that may raise. *)
Definition lift {A} (o : option A) : M A :=
  fun g => match o with Some a => Some (a, g) | None => None end.

Definition draw {A} (f : rng -> A * rng) : M A := fun g => Some (f g).

(** [for x in xs: body], threading the list under construction. *)
Fixpoint for_each {A S} (xs : list A) (body : A -> S -> M S) (s : S) : M S :=
  match xs with
  | [] => ret s
  | x :: xs' => bind (body x s) (for_each xs' body)
  end.
End Monad.
End Gen.

Notation "x <- m ;; k" := (Gen.bind m (fun x => k))
  (at level 61, m at next level, right associativity).

(** ** The calendar: [pd.date_range(start, end, freq='M')] *)

Definition is_leap (y : Z) : bool :=
  ((y mod 4 =? 0) && negb (y mod 100 =? 0)) || (y mod 400 =? 0).

Definition days_in_month (y m : Z) : Z :=
  if m =? 2 then (if is_leap y then 29 else 28)
  else if (m =? 4) || (m =? 6) || (m =? 9) || (m =? 11) then 30
  else 31.

Definition month_end (y m : Z) : Date := mkDate y m (days_in_month y m).

Fixpoint month_ends_from (n : nat) (y m : Z) : list Date :=
  match n with
  | O => []
  | S n' =>
      month_end y m ::
      (if m =? 12 then month_ends_from n' (y + 1) 1
       else month_ends_from n' y (m + 1))
  end.

(** The month-end dates [d] with [start <= d <= stop]. *)
Definition date_range_M (start stop : Date) : list Date :=
  filter (fun d => date_leb start d && date_leb d stop)
    (month_ends_from
       (Z.to_nat ((dyear stop - dyear start) * 12 + dmonth stop - dmonth start + 1))
       (dyear start) (dmonth start)).

(** ** The fixed enumeration (lines 15-22) *)

Definition categories : list string := ["2W"; "3W"; "4W"]%string.

Definition manufacturers : list (string * list string) :=
  [ ("2W", ["Hero"; "Honda"; "Bajaj"; "TVS"; "Royal Enfield"]);
    ("3W", ["Bajaj"; "Mahindra"; "Piaggio"; "TVS"]);
    ("4W", ["Maruti"; "Hyundai"; "Tata"; "Mahindra"; "Kia"; "Toyota"]) ]%string.

(** [d.get(key, default)]. *)
Fixpoint dict_get {V} (d : list (string * V)) (key : string) (default : V) : V :=
  match d with
  | [] => default
  | (k, v) :: d' => if String.eqb key k then v else dict_get d' key default
  end.

Definition dates : list Date :=
  date_range_M (mkDate 2019 1 1) (mkDate 2023 12 31).

(** ** The loop body (lines 28-42) *)

Section Generator.
Context {np : NumPy}.

Definition growth_of (d : Date) : F64.float :=
  F64.mul (F64.of_int (dyear d - 2019)) (F64.lit 15 100).

Definition seasonality_of (d : Date) : F64.float :=
  F64.mul
    (np_sin (F64.div (F64.mul (F64.of_int (dmonth d - 1)) np_pi) (F64.of_int 6)))
    (F64.lit 2 10).

(** [base * (1 + growth + seasonality + noise)]. *)
Definition scaled (base : Z) (d : Date) (noise : F64.float) : F64.float :=
  F64.mul (F64.of_int base)
    (F64.add (F64.add (F64.add (F64.of_int 1) (growth_of d)) (seasonality_of d))
             noise).

Definition mock_row (d : Date) (cat manu : string) : Gen.M Row :=
  base <- Gen.draw (randint 1000 5000) ;;
  noise <- Gen.draw (normal (F64.of_int 0) (F64.lit 1 10)) ;;
  regs <- Gen.lift (F64.py_int (scaled base d noise)) ;;
  Gen.ret {| date := d;
             year := dyear d;
             quarter := ("Q" ++ str ((dmonth d - 1) / 3 + 1))%string;
             month := dmonth d;
             category := cat;
             manufacturer := manu;
             registrations := Z.max 1000 regs |}.

(** The three nested loops, appending to [data]. *)
Definition generate (ds : list Date) (cats : list string)
    (table : list (string * list string)) : Gen.M DataFrame :=
  Gen.for_each ds (fun d =>
    Gen.for_each cats (fun cat =>
      Gen.for_each (dict_get table cat []) (fun manu data =>
        row <- mock_row d cat manu ;;
        Gen.ret (data ++ [row])))) [].

Definition mock_data : Gen.M DataFrame := generate dates categories manufacturers.

(** [load_data]: the file's frame when reading it succeeds, the mock data
    on any failure.  The write of line 45 is left out: what follows is
    about the frame [load_data] returns when it returns. *)
Definition load_data (csv : option DataFrame) : Gen.M DataFrame :=
  match csv with
  | Some df => Gen.ret df
  | None => mock_data
  end.
End Generator.

(** The value the specification gives the generator:
    [max(1000, round(base * (1 + growth + seasonality + noise)))]. *)
Definition spec_registrations {np : NumPy} (base : Z) (d : Date) (noise : F64.float)
    : option Z :=
  option_map (Z.max 1000) (F64.py_round (scaled base d noise)).

(* ================================================================= *)
(** * Concrete inputs *)

(** A random source that replays recorded draws: [randint] maps the next
    recorded integer into the requested interval, [normal] returns the
    next recorded float; an exhausted record yields [low] and the mean.
    The sine is a polynomial stand-in, exact at [0.0]. *)
Definition sin_poly (x : F64.float) : F64.float :=
  let one := F64.of_int 1 in
  let x2 := F64.mul x x in
  F64.mul x
    (F64.sub one (F64.mul (F64.div x2 (F64.of_int 6))
      (F64.sub one (F64.mul (F64.div x2 (F64.of_int 20))
        (F64.sub one (F64.div x2 (F64.of_int 42))))))).

Definition replay : NumPy := {|
  rng := list Z * list F64.float;
  randint := fun lo hi g =>
    match fst g with
    | [] => (lo, g)
    | z :: zs => (lo + z mod (hi - lo), (zs, snd g))
    end;
  normal := fun mu sigma g =>
    match snd g with
    | [] => (mu, g)
    | x :: xs => (x, (fst g, xs))
    end;
  np_sin := sin_poly
|}.

Definition jan_2019 : Date := mkDate 2019 1 31.

(** Draws [base = 2000] and [noise = 0.00045]. *)
Definition draws_2000_9 : list Z * list F64.float := ([1000], [F64.lit 45 100000]).

(** A short record of draws; the later rows get [low] and the mean. *)
Definition demo_draws : list Z * list F64.float :=
  ([5; 17; 4001; 2500], [F64.lit 1 10; F64.lit (-5) 100; F64.lit 3 100]).

(** The scenario of the specification for the headline growth metric. *)
Definition hero_2022_2023 : DataFrame :=
  [ mkRow (mkDate 2022 1 31) 2022 "Q1" 1 "2W" "Hero" 1000;
    mkRow (mkDate 2023 1 31) 2023 "Q1" 1 "2W" "Hero" 1100 ]%string.

(** A frame whose yearly totals are 1000 for 2019 and 1500 for 2020. *)
Definition totals_2019_2020 : DataFrame :=
  [ mkRow (mkDate 2020 1 31) 2020 "Q1" 1 "2W" "Hero" 900;
    mkRow (mkDate 2019 1 31) 2019 "Q1" 1 "2W" "Hero" 400;
    mkRow (mkDate 2020 2 29) 2020 "Q1" 2 "4W" "Kia" 600;
    mkRow (mkDate 2019 3 31) 2019 "Q1" 3 "3W" "TVS" 600 ]%string.

(** Only 2023 is present: the prior year's total is zero. *)
Definition hero_2023_only : DataFrame :=
  [ mkRow (mkDate 2023 1 31) 2023 "Q1" 1 "2W" "Hero" 1100 ]%string.

(** 10.000000000000009, i.e. [10 + 5 * 2^-49]. *)
Definition f64_10_plus_5ulp : F64.float := S754_finite false 5629499534213125 (-49).

(* ================================================================= *)
(** * Specification-side notions *)

(** The calendar order [a <= b]. *)
Definition date_le (a b : Date) : Prop :=
  dyear a < dyear b \/
  (dyear a = dyear b /\
   (dmonth a < dmonth b \/ (dmonth a = dmonth b /\ dday a <= dday b))).

(** The exact (unbounded) sum of a list of integers. *)
Definition Zsum (l : list Z) : Z := fold_right Z.add 0 l.

(** The rows of a frame with a given year. *)
Definition rows_of_year (y : Z) (df : DataFrame) : DataFrame :=
  filter (fun r => year r =? y) df.

(** The total recorded for a key in a grouped frame. *)
Definition group_lookup (y : Z) (groups : list (Z * Z)) : option Z :=
  option_map snd (find (fun p => fst p =? y) groups).

(** The total a year must carry: absent when the frame has no row of that
    year, else the int64 sum of that year's rows. *)
Definition expected_total (y : Z) (df : DataFrame) : option Z :=
  match rows_of_year y df with
  | [] => None
  | rs => Some (Int64.sum (map registrations rs))
  end.

(** The growth column as the specification words it: no value for the
    first year, [(this / previous - 1) * 100] for each later year. *)
Definition spec_growth (prev : option Z) (this : Z) : F64.float :=
  match prev with
  | None => F64.NaN
  | Some p =>
      F64.mul (F64.sub (F64.div (F64.of_int this) (F64.of_int p)) (F64.of_int 1))
              (F64.of_int 100)
  end.

Fixpoint spec_yoy (prev : option Z) (totals : list (Z * Z)) : list YoyRow :=
  match totals with
  | [] => []
  | (y, t) :: rest => mkYoy y t (spec_growth prev t) :: spec_yoy (Some t) rest
  end.

(* ================================================================= *)
(** * Further notions *)

(** ** The display of the total (line 91) *)

(** Python's [','] format option on the digits of an integer, least
    significant digit first: a comma after every third digit that has a
    digit behind it. *)
Fixpoint group3 (rev_digits : list ascii) : list ascii :=
  match rev_digits with
  | a :: b :: c :: ((_ :: _) as rest) => a :: b :: c :: ","%char :: group3 rest
  | _ => rev_digits
  end.

(** [f"{n:,}"]: the sign, then the decimal digits in groups of three. *)
Definition format_thousands (n : Z) : string :=
  let digits := list_ascii_of_string (str (Z.abs n)) in
  let body := string_of_list_ascii (rev (group3 (rev digits))) in
  if n <? 0 then String "-" body else body.

Definition total_reg_text (df : DataFrame) : string :=
  format_thousands (total_reg df).

(** [s.replace(',', '')]. *)
Definition strip_commas (s : string) : string :=
  string_of_list_ascii
    (filter (fun c => negb (Ascii.eqb c ","%char)) (list_ascii_of_string s)).

Definition is_digit (c : ascii) : bool :=
  existsb (Ascii.eqb c) (list_ascii_of_string "0123456789").

(** ** The generator's enumeration *)

(** The key columns of a row. *)
Definition row_key (r : Row) : Date * string * string :=
  (date r, category r, manufacturer r).

(** The combinations the three loops run through, in loop order. *)
Definition combinations (ds : list Date) (cats : list string)
    (table : list (string * list string)) : list (Date * string * string) :=
  flat_map (fun d =>
    flat_map (fun cat => map (fun manu => (d, cat, manu)) (dict_get table cat []))
             cats) ds.

(** The strict calendar order and the month-end dates. *)
Definition date_lt (a b : Date) : Prop := date_compare a b = Lt.

Definition is_month_end (d : Date) : Prop :=
  1 <= dmonth d <= 12 /\ dday d = days_in_month (dyear d) (dmonth d).

(** ** Grouping by an ordered key *)

Definition is_Eq (c : comparison) : bool :=
  match c with Eq => true | _ => false end.

(** What [groupby] needs of the order it sorts the keys by. *)
Class KeyOrder {K : Type} (cmp : K -> K -> comparison) : Prop := {
  cmp_eq : forall a b, cmp a b = Eq -> a = b;
  cmp_refl : forall a, cmp a a = Eq;
  cmp_lt_trans : forall a b c, cmp a b = Lt -> cmp b c = Lt -> cmp a c = Lt;
  cmp_gt_lt : forall a b, cmp a b = Gt -> cmp b a = Lt
}.

Definition key_lt {K : Type} (cmp : K -> K -> comparison) (a b : K) : Prop :=
  cmp a b = Lt.

(** The rows of a frame with a given key. *)
Definition rows_with {K : Type} (cmp : K -> K -> comparison) (key : Row -> K)
    (k : K) (df : DataFrame) : DataFrame :=
  filter (fun r => is_Eq (cmp (key r) k)) df.

Definition lookup_by {K : Type} (cmp : K -> K -> comparison) (k : K)
    (groups : list (K * Z)) : option Z :=
  option_map snd (find (fun p => is_Eq (cmp (fst p) k)) groups).

(** The total a key must carry: absent when no row has the key, else the
    int64 sum of the rows that have it. *)
Definition expected_by {K : Type} (cmp : K -> K -> comparison) (key : Row -> K)
    (k : K) (df : DataFrame) : option Z :=
  match rows_with cmp key k df with
  | [] => None
  | rs => Some (Int64.sum (map registrations rs))
  end.

(** The keys of a grouped frame, built from the key column alone. *)
Fixpoint insert_key {K : Type} (cmp : K -> K -> comparison) (k : K)
    (keys : list K) : list K :=
  match keys with
  | [] => [k]
  | k' :: rest =>
      match cmp k k' with
      | Lt => k :: keys
      | Eq => keys
      | Gt => k' :: insert_key cmp k rest
      end
  end.

Definition sorted_keys {K : Type} (cmp : K -> K -> comparison)
    (column : list K) : list K :=
  fold_left (fun keys k => insert_key cmp k keys) column [].

(* ================================================================= *)
(** * Frames as read from a file *)

(** [read_csv] leaves a blank cell as a missing value (NaN, and NaT in
    the parsed date column) and keeps the time of day a date cell carries.
    [Row] above is a row without missing cells whose date is at midnight,
    as the generator writes it; [Raw.Row] is a row of any file.  The
    registrations column is an int64 column in both. *)
Module Raw.

(** A pandas [Timestamp]: the calendar date and the time of day, in
    nanoseconds since midnight. *)
Record Timestamp := mkTs { ts_date : Date; ts_time : N }.

Definition ts_compare (a b : Timestamp) : comparison :=
  match date_compare (ts_date a) (ts_date b) with
  | Eq => N.compare (ts_time a) (ts_time b)
  | c => c
  end.

Definition ts_leb (a b : Timestamp) : bool :=
  match ts_compare a b with Gt => false | _ => true end.

(** [pd.to_datetime(d)] for a calendar date [d], as the date widget
    returns them. *)
Definition midnight (d : Date) : Timestamp := mkTs d 0.

(** [None] is the missing value of the column. *)
Record Row := mkRow {
  date : option Timestamp;
  year : option Z;
  quarter : option string;
  month : option Z;
  category : option string;
  manufacturer : option string;
  registrations : Z
}.

Definition Frame := list Row.

(** [s >= v], [s <= v], [s == v]: a comparison with a missing value is
    [False]. *)
Definition cmp_scalar {A} (test : A -> bool) (s : list (option A)) : list bool :=
  map (fun v => match v with Some a => test a | None => false end) s.

(** [v in values] as [isin] decides it: a missing value matches a missing
    value. *)
Definition cell_eqb (a b : option string) : bool :=
  match a, b with
  | Some x, Some y => String.eqb x y
  | None, None => true
  | _, _ => false
  end.

Definition mem (v : option string) (values : list (option string)) : bool :=
  existsb (cell_eqb v) values.

Definition isin (s values : list (option string)) : list bool :=
  map (fun v => mem v values) s.

(** [s.unique()]: the distinct values in order of first appearance, the
    missing value among them. *)
Definition unique (s : list (option string)) : list (option string) :=
  fold_left (fun seen v => if mem v seen then seen else seen ++ [v]) s [].

(** [s.min()] and [s.max()] skip missing values; the result is missing
    when nothing else is there. *)
Definition ts_min2 (a b : Timestamp) : Timestamp := if ts_leb a b then a else b.
Definition ts_max2 (a b : Timestamp) : Timestamp := if ts_leb a b then b else a.

Definition skipna (pick : Timestamp -> Timestamp -> Timestamp)
    (s : list (option Timestamp)) : option Timestamp :=
  fold_left (fun acc v =>
               match v, acc with
               | Some t, Some a => Some (pick a t)
               | Some t, None => Some t
               | None, _ => acc
               end) s None.

Definition series_min : list (option Timestamp) -> option Timestamp := skipna ts_min2.
Definition series_max : list (option Timestamp) -> option Timestamp := skipna ts_max2.

(** Lines 78-83. *)
Definition filter_mask (df : Frame) (date_range : Date * Date)
    (categories manufacturers : list (option string)) : list bool :=
  Pandas.and_series
    (Pandas.and_series
      (Pandas.and_series
        (cmp_scalar (fun t => ts_leb (midnight (fst date_range)) t) (map date df))
        (cmp_scalar (fun t => ts_leb t (midnight (snd date_range))) (map date df)))
      (isin (map category df) categories))
    (isin (map manufacturer df) manufacturers).

Definition filtered_df (df : Frame) (date_range : Date * Date)
    (categories manufacturers : list (option string)) : Frame :=
  Pandas.bool_index df (filter_mask df date_range categories manufacturers).

(** Lines 58-75: the date widget turns the minimum and maximum timestamp
    into calendar dates. *)
Definition default_categories (df : Frame) : list (option string) :=
  unique (map category df).

Definition default_manufacturers (df : Frame) : list (option string) :=
  unique (map manufacturer df).

Definition default_date_range (df : Frame) : option (Date * Date) :=
  match series_min (map date df), series_max (map date df) with
  | Some lo, Some hi => Some (ts_date lo, ts_date hi)
  | _, _ => None
  end.

(** [df.groupby(key)['registrations'].sum().reset_index()]: a row whose
    key is missing belongs to no group. *)
Definition groupby_sum {K : Type} (cmp : K -> K -> comparison)
    (key : Row -> option K) (df : Frame) : list (K * Z) :=
  fold_left (fun groups r =>
               match key r with
               | Some k => Pandas_groupby.accumulate cmp k (registrations r) groups
               | None => groups
               end) df [].

Definition total_reg (df : Frame) : Z := Int64.sum (map registrations df).

Definition manu_share (df : Frame) : list (string * Z) :=
  groupby_sum String.compare manufacturer df.

Definition ts_category_compare (a b : Timestamp * string) : comparison :=
  match ts_compare (fst a) (fst b) with
  | Eq => String.compare (snd a) (snd b)
  | c => c
  end.

(** The key of [groupby(['date', 'category'])]: missing when either part
    is. *)
Definition date_category (r : Row) : option (Timestamp * string) :=
  match date r, category r with
  | Some t, Some c => Some (t, c)
  | _, _ => None
  end.

Definition monthly (df : Frame) : list ((Timestamp * string) * Z) :=
  groupby_sum ts_category_compare date_category df.

(** The rows whose key is present. *)
Definition with_key {K : Type} (key : Row -> option K) (df : Frame) : Frame :=
  filter (fun r => match key r with Some _ => true | None => false end) df.

End Raw.

(** A row without missing cells, as a row of a file. *)
Definition raw_row (r : Row) : Raw.Row :=
  Raw.mkRow (Some (Raw.midnight (date r))) (Some (year r)) (Some (quarter r))
            (Some (month r)) (Some (category r)) (Some (manufacturer r))
            (registrations r).

Definition raw_frame (df : DataFrame) : Raw.Frame := map raw_row df.

(** The calendar order on timestamps. *)
Definition ts_le (a b : Raw.Timestamp) : Prop := Raw.ts_compare a b <> Gt.

(** The row predicate of the filter on such a frame. *)
Definition raw_keeps (date_range : Date * Date)
    (categories manufacturers : list (option string)) (r : Raw.Row) : bool :=
  match Raw.date r with
  | Some t => Raw.ts_leb (Raw.midnight (fst date_range)) t
              && Raw.ts_leb t (Raw.midnight (snd date_range))
  | None => false
  end
  && Raw.mem (Raw.category r) categories
  && Raw.mem (Raw.manufacturer r) manufacturers.

(** A frame with a blank manufacturer cell, and one with a blank category
    cell. *)
Definition blank_manufacturer : Raw.Frame :=
  [ Raw.mkRow (Some (Raw.midnight (mkDate 2023 1 31))) (Some 2023) (Some "Q1")
              (Some 1) (Some "2W") (Some "Hero") 1000;
    Raw.mkRow (Some (Raw.midnight (mkDate 2023 1 31))) (Some 2023) (Some "Q1")
              (Some 1) (Some "2W") None 1100 ]%string.

Definition blank_category : Raw.Frame :=
  [ Raw.mkRow (Some (Raw.midnight (mkDate 2023 1 31))) (Some 2023) (Some "Q1")
              (Some 1) (Some "2W") (Some "Hero") 1000;
    Raw.mkRow (Some (Raw.midnight (mkDate 2023 1 31))) (Some 2023) (Some "Q1")
              (Some 1) None (Some "Hero") 1100 ]%string.

(** A frame with a blank date cell, and one whose latest date cell carries
    a time of day (15:00). *)
Definition blank_date : Raw.Frame :=
  [ Raw.mkRow (Some (Raw.midnight (mkDate 2023 1 31))) (Some 2023) (Some "Q1")
              (Some 1) (Some "2W") (Some "Hero") 1000;
    Raw.mkRow None (Some 2023) (Some "Q1")
              (Some 1) (Some "2W") (Some "Hero") 1100 ]%string.

Definition afternoon_date : Raw.Frame :=
  [ Raw.mkRow (Some (Raw.midnight (mkDate 2023 1 30))) (Some 2023) (Some "Q1")
              (Some 1) (Some "2W") (Some "Hero") 1000;
    Raw.mkRow (Some (Raw.mkTs (mkDate 2023 1 31) 54000000000000)) (Some 2023)
              (Some "Q1") (Some 1) (Some "2W") (Some "Hero") 1100 ]%string.

(* ================================================================= *)
(** * Dates *)

Lemma date_leb_iff a b : date_leb a b = true <-> date_le a b.
Proof.
  unfold date_leb, date_compare, date_le.
  destruct (Z.compare_spec (dyear a) (dyear b));
    destruct (Z.compare_spec (dmonth a) (dmonth b));
    destruct (Z.compare_spec (dday a) (dday b));
    split; intros; try discriminate; try reflexivity; lia.
Qed.

Lemma date_le_refl a : date_le a a.
Proof. unfold date_le; lia. Qed.

Lemma date_le_trans a b c : date_le a b -> date_le b c -> date_le a c.
Proof. unfold date_le; lia. Qed.

Lemma date_le_total a b : date_le a b \/ date_le b a.
Proof. unfold date_le; lia. Qed.

Lemma date_leb_false a b : date_leb a b = false -> date_le b a.
Proof.
  intros H. destruct (date_le_total a b) as [Hab|Hba]; [|exact Hba].
  apply date_leb_iff in Hab. congruence.
Qed.

Lemma fold_min_below d s :
  date_le (fold_left Pandas.date_min2 s d) d /\
  forall x, In x s -> date_le (fold_left Pandas.date_min2 s d) x.
Proof.
  revert d. induction s as [|y s IH]; intros d; simpl.
  - split; [apply date_le_refl | intros x []].
  - destruct (IH (Pandas.date_min2 d y)) as [H0 Hall].
    assert (Hd : date_le (Pandas.date_min2 d y) d /\ date_le (Pandas.date_min2 d y) y).
    { unfold Pandas.date_min2. destruct (date_leb d y) eqn:E.
      - split; [apply date_le_refl | now apply date_leb_iff].
      - split; [now apply date_leb_false | apply date_le_refl]. }
    destruct Hd as [Hd Hy]. split.
    + eapply date_le_trans; eauto.
    + intros x [<-|Hx]; [eapply date_le_trans; eauto | auto].
Qed.

Lemma fold_max_above d s :
  date_le d (fold_left Pandas.date_max2 s d) /\
  forall x, In x s -> date_le x (fold_left Pandas.date_max2 s d).
Proof.
  revert d. induction s as [|y s IH]; intros d; simpl.
  - split; [apply date_le_refl | intros x []].
  - destruct (IH (Pandas.date_max2 d y)) as [H0 Hall].
    assert (Hd : date_le d (Pandas.date_max2 d y) /\ date_le y (Pandas.date_max2 d y)).
    { unfold Pandas.date_max2. destruct (date_leb d y) eqn:E.
      - split; [now apply date_leb_iff | apply date_le_refl].
      - split; [apply date_le_refl | now apply date_leb_false]. }
    destruct Hd as [Hd Hy]. split.
    + eapply date_le_trans; eauto.
    + intros x [<-|Hx]; [eapply date_le_trans; eauto | auto].
Qed.

Lemma series_min_le s lo :
  Pandas.series_min s = Some lo -> forall x, In x s -> date_le lo x.
Proof.
  destruct s as [|d s]; simpl; [discriminate|].
  intros [= <-] x Hx. destruct (fold_min_below d s) as [H0 Hall].
  destruct Hx as [<-|Hx]; auto.
Qed.

Lemma series_max_ge s hi :
  Pandas.series_max s = Some hi -> forall x, In x s -> date_le x hi.
Proof.
  destruct s as [|d s]; simpl; [discriminate|].
  intros [= <-] x Hx. destruct (fold_max_above d s) as [H0 Hall].
  destruct Hx as [<-|Hx]; auto.
Qed.

(* ================================================================= *)
(** * Series and masks *)

Lemma and_series_map {A} (f g : A -> bool) (l : list A) :
  Pandas.and_series (map f l) (map g l) = map (fun x => f x && g x) l.
Proof. induction l as [|x l IH]; simpl; [reflexivity | now rewrite IH]. Qed.

Lemma bool_index_map {A} (f : A -> bool) (l : list A) :
  Pandas.bool_index l (map f l) = filter f l.
Proof.
  induction l as [|x l IH]; simpl; [reflexivity|].
  destruct (f x); now rewrite IH.
Qed.

Lemma mem_In v values : Pandas.mem v values = true <-> In v values.
Proof.
  unfold Pandas.mem. rewrite existsb_exists. split.
  - intros (x & Hx & E). apply String.eqb_eq in E. now subst.
  - intros H. exists v. split; [assumption | apply String.eqb_refl].
Qed.

Lemma unique_fold_spec s seen v :
  In v (fold_left (fun seen v => if Pandas.mem v seen then seen else seen ++ [v]) s seen)
  <-> In v seen \/ In v s.
Proof.
  revert seen. induction s as [|x s IH]; intros seen; simpl.
  - tauto.
  - rewrite IH. destruct (Pandas.mem x seen) eqn:E.
    + apply mem_In in E. split; [tauto|]. intros [H|[<-|H]]; auto.
    + rewrite in_app_iff. simpl. tauto.
Qed.

Lemma unique_In s v : In v (Pandas.unique s) <-> In v s.
Proof. unfold Pandas.unique. rewrite unique_fold_spec. simpl. tauto. Qed.

Lemma filter_mask_keeps df dr cats mans :
  filter_mask df dr cats mans = map (keeps dr cats mans) df.
Proof.
  unfold filter_mask, Pandas.cmp_scalar, Pandas.isin, Pandas.column.
  rewrite !map_map, !and_series_map. reflexivity.
Qed.

Lemma filtered_df_filter df dr cats mans :
  filtered_df df dr cats mans = filter (keeps dr cats mans) df.
Proof. unfold filtered_df. rewrite filter_mask_keeps. apply bool_index_map. Qed.

Lemma keeps_iff dr cats mans r :
  keeps dr cats mans r = true <->
  date_le (fst dr) (date r) /\ date_le (date r) (snd dr) /\
  In (category r) cats /\ In (manufacturer r) mans.
Proof.
  unfold keeps. rewrite !andb_true_iff, !date_leb_iff, !mem_In. tauto.
Qed.

Lemma filter_all_true {A} (f : A -> bool) (l : list A) :
  (forall x, In x l -> f x = true) -> filter f l = l.
Proof.
  induction l as [|x l IH]; simpl; intros H; [reflexivity|].
  rewrite (H x (or_introl eq_refl)). f_equal. apply IH. auto.
Qed.

Lemma filter_all_false {A} (f : A -> bool) (l : list A) :
  (forall x, f x = false) -> filter f l = [].
Proof.
  intros H. induction l as [|x l IH]; simpl; [reflexivity|]. now rewrite H.
Qed.

(* ================================================================= *)
(** * The filter *)

(** C1. The filter returns exactly the rows, in input order, whose date
    lies in the closed range and whose category and manufacturer are in
    the selected sets; an empty category or manufacturer selection gives
    the empty frame. *)
Theorem filter_contract (df : DataFrame) (dr : Date * Date) (cats mans : list string) :
  filtered_df df dr cats mans = filter (keeps dr cats mans) df
  /\ (forall r, keeps dr cats mans r = true <->
        date_le (fst dr) (date r) /\ date_le (date r) (snd dr) /\
        In (category r) cats /\ In (manufacturer r) mans)
  /\ filtered_df df dr cats [] = []
  /\ filtered_df df dr [] mans = [].
Proof.
  split; [apply filtered_df_filter|].
  split; [intros r; apply keeps_iff|].
  split; rewrite filtered_df_filter; apply filter_all_false; intros r;
    unfold keeps; simpl; now rewrite ?andb_false_r.
Qed.

(** C7. Filtering a filtered frame again with the same selection changes
    nothing. *)
Theorem filter_idempotent (df : DataFrame) (dr : Date * Date) (cats mans : list string) :
  filtered_df (filtered_df df dr cats mans) dr cats mans = filtered_df df dr cats mans.
Proof.
  rewrite !filtered_df_filter. apply filter_all_true.
  intros r Hr. apply filter_In in Hr. tauto.
Qed.

(* ================================================================= *)
(** * int64 sums *)

Lemma wrap_small z : - Int64.half <= z < Int64.half -> Int64.wrap z = z.
Proof.
  unfold Int64.wrap, Int64.half, Int64.modulus. intros H.
  rewrite Z.mod_small; lia.
Qed.

Lemma wrap_add_l a b : Int64.wrap (Int64.wrap a + b) = Int64.wrap (a + b).
Proof.
  unfold Int64.wrap. f_equal.
  replace ((a + Int64.half) mod Int64.modulus - Int64.half + b + Int64.half)
    with ((a + Int64.half) mod Int64.modulus + b) by lia.
  rewrite Zplus_mod_idemp_l. f_equal. lia.
Qed.

Lemma wrap_add_r a b : Int64.wrap (a + Int64.wrap b) = Int64.wrap (a + b).
Proof. rewrite (Z.add_comm a), wrap_add_l. f_equal. lia. Qed.

Lemma fold_add_wrap l a :
  fold_left Int64.add l (Int64.wrap a) = Int64.wrap (a + Zsum l).
Proof.
  revert a. induction l as [|x l IH]; intros a; simpl.
  - f_equal. lia.
  - unfold Int64.add at 2. rewrite wrap_add_l, IH. f_equal. lia.
Qed.

(** An int64 sum is the exact sum reduced into the int64 range. *)
Lemma sum_wrap l : Int64.sum l = Int64.wrap (Zsum l).
Proof.
  unfold Int64.sum. change 0 with (Int64.wrap 0) at 1.
  rewrite fold_add_wrap. reflexivity.
Qed.

Lemma Zsum_app l1 l2 : Zsum (l1 ++ l2) = Zsum l1 + Zsum l2.
Proof. induction l1 as [|x l1 IH]; simpl; [reflexivity | rewrite IH; lia]. Qed.

Lemma Zsum_nonneg l : Forall (fun v => 0 <= v) l -> 0 <= Zsum l.
Proof. induction 1; simpl; lia. Qed.

(* ================================================================= *)
(** * Grouped sums *)

Section GroupByFacts.
Context {K : Type}.
Variable cmp : K -> K -> comparison.
Variable key : Row -> K.

(** Adding a row to the table adds its value to the table's mass. *)
Lemma accumulate_mass k v groups :
  Int64.wrap (Zsum (map snd (Pandas_groupby.accumulate cmp k v groups)))
  = Int64.wrap (Zsum (map snd groups) + v).
Proof.
  induction groups as [|[k' s] rest IH]; simpl.
  - unfold Int64.add. rewrite wrap_add_l. f_equal. lia.
  - destruct (cmp k k'); simpl.
    + unfold Int64.add. rewrite wrap_add_l. f_equal. lia.
    + unfold Int64.add. rewrite wrap_add_l. f_equal. lia.
    + rewrite <- wrap_add_r, IH, wrap_add_r. f_equal. lia.
Qed.

Lemma fold_accumulate_mass df groups :
  Int64.wrap (Zsum (map snd
    (fold_left (fun g r => Pandas_groupby.accumulate cmp (key r) (registrations r) g)
       df groups)))
  = Int64.wrap (Zsum (map snd groups) + Zsum (map registrations df)).
Proof.
  revert groups. induction df as [|r df IH]; intros groups; simpl.
  - f_equal. lia.
  - rewrite IH, <- wrap_add_l, accumulate_mass, wrap_add_l. f_equal. lia.
Qed.

(** The int64 total of the grouped frame is the int64 total of the frame. *)
Lemma groupby_mass df :
  group_total (Pandas_groupby.groupby_sum cmp key df) = total_reg df.
Proof.
  unfold group_total, total_reg, Pandas.column. rewrite !sum_wrap.
  unfold Pandas_groupby.groupby_sum.
  rewrite fold_accumulate_mass. reflexivity.
Qed.

(** Without overflow the group totals are exact. *)
Lemma accumulate_exact k v groups :
  0 <= v -> Forall (fun s => 0 <= s) (map snd groups) ->
  Zsum (map snd groups) + v < Int64.half ->
  Forall (fun s => 0 <= s) (map snd (Pandas_groupby.accumulate cmp k v groups))
  /\ Zsum (map snd (Pandas_groupby.accumulate cmp k v groups))
     = Zsum (map snd groups) + v.
Proof.
  intros Hv.
  induction groups as [|[k' s] rest IH]; simpl; intros Hpos Hlt.
  - unfold Int64.add. rewrite wrap_small by (unfold Int64.half in *; lia).
    split; [repeat constructor; lia | lia].
  - inversion Hpos as [|? ? Hs Hrest]; subst.
    pose proof (Zsum_nonneg Hrest) as Hr.
    destruct (cmp k k'); simpl.
    + unfold Int64.add. rewrite wrap_small by (unfold Int64.half in *; lia).
      split; [constructor; [lia | assumption] | lia].
    + unfold Int64.add. rewrite wrap_small by (unfold Int64.half in *; lia).
      split; [constructor; [lia | assumption] | lia].
    + destruct (IH Hrest) as [IH1 IH2]; [lia|].
      split; [constructor; assumption | lia].
Qed.

Lemma fold_accumulate_exact df groups :
  Forall (fun r => 0 <= registrations r) df ->
  Forall (fun s => 0 <= s) (map snd groups) ->
  Zsum (map snd groups) + Zsum (map registrations df) < Int64.half ->
  Zsum (map snd
    (fold_left (fun g r => Pandas_groupby.accumulate cmp (key r) (registrations r) g)
       df groups))
  = Zsum (map snd groups) + Zsum (map registrations df).
Proof.
  intros Hdf. revert groups.
  induction Hdf as [|r df Hr Hdf IH]; intros groups Hpos Hlt; simpl in *.
  - lia.
  - assert (Hrest : 0 <= Zsum (map registrations df)).
    { apply Zsum_nonneg. now apply Forall_map. }
    destruct (accumulate_exact (key r) groups Hr Hpos) as [H1 H2]; [lia|].
    rewrite IH; [lia | assumption | lia].
Qed.

Lemma groupby_exact df :
  Forall (fun r => 0 <= registrations r) df ->
  Zsum (map registrations df) < Int64.half ->
  Zsum (map snd (Pandas_groupby.groupby_sum cmp key df)) = Zsum (map registrations df)
  /\ total_reg df = Zsum (map registrations df).
Proof.
  intros Hpos Hlt. split.
  - unfold Pandas_groupby.groupby_sum.
    rewrite fold_accumulate_exact; simpl; auto.
  - unfold total_reg, Pandas.column. rewrite sum_wrap. apply wrap_small.
    assert (0 <= Zsum (map registrations df)).
    { apply Zsum_nonneg. now apply Forall_map. }
    unfold Int64.half in *. lia.
Qed.
End GroupByFacts.

(** C9. On the empty frame the total is 0, the date column has no maximum
    (so no latest month is produced), and both grouped frames are empty. *)
Theorem empty_frame_metrics :
  total_reg [] = 0
  /\ latest_date [] = None
  /\ latest_month [] = None
  /\ manu_share [] = []
  /\ monthly [] = [].
Proof. repeat split. Qed.

(* ================================================================= *)
(** * Totals per year *)

Section YearTotals.

Lemma accumulate_keys (P : Z -> Prop) k v g :
  P k -> Forall P (map fst g) ->
  Forall P (map fst (Pandas_groupby.accumulate Z.compare k v g)).
Proof.
  intros Hk.
  induction g as [|[k' s] rest IH]; simpl; intros Hg.
  - constructor; auto.
  - inversion Hg; subst.
    destruct (k ?= k'); simpl; repeat (constructor; auto).
Qed.

Lemma accumulate_sorted k v g :
  StronglySorted Z.lt (map fst g) ->
  StronglySorted Z.lt (map fst (Pandas_groupby.accumulate Z.compare k v g)).
Proof.
  induction g as [|[k' s] rest IH]; simpl; intros Hg.
  - repeat constructor.
  - inversion Hg as [|? ? Hrest Hall]; subst.
    destruct (Z.compare_spec k k') as [E|L|G]; simpl.
    + constructor; assumption.
    + constructor; [assumption|]. constructor; [assumption|].
      eapply Forall_impl; [|exact Hall]. simpl. intros; lia.
    + constructor; [now apply IH|].
      apply accumulate_keys; [lia | assumption].
Qed.

Lemma lookup_above k g :
  Forall (Z.lt k) (map fst g) -> group_lookup k g = None.
Proof.
  unfold group_lookup.
  induction g as [|[k' s] rest IH]; simpl; intros Hg; [reflexivity|].
  inversion Hg; subst. destruct (Z.eqb_spec k' k); [lia | auto].
Qed.

Lemma lookup_accumulate y k v g :
  StronglySorted Z.lt (map fst g) ->
  group_lookup y (Pandas_groupby.accumulate Z.compare k v g)
  = if y =? k
    then Some (Int64.add (match group_lookup k g with Some s => s | None => 0 end) v)
    else group_lookup y g.
Proof.
  unfold group_lookup.
  induction g as [|[k' s] rest IH]; simpl; intros Hg.
  - rewrite (Z.eqb_sym k y). destruct (y =? k); reflexivity.
  - inversion Hg as [|? ? Hrest Hall]; subst.
    destruct (Z.compare_spec k k') as [E|L|G]; simpl.
    + subst k'. rewrite (Z.eqb_refl k), (Z.eqb_sym k y).
      destruct (y =? k); reflexivity.
    + rewrite (Z.eqb_sym k y). destruct (Z.eqb_spec y k) as [->|Hne].
      * destruct (Z.eqb_spec k' k); [lia|].
        fold (group_lookup k rest). rewrite lookup_above; [reflexivity|].
        eapply Forall_impl; [|exact Hall]. simpl. intros; lia.
      * reflexivity.
    + destruct (Z.eqb_spec k' k); [lia|].
      destruct (Z.eqb_spec k' y) as [->|Hy].
      * destruct (Z.eqb_spec y k); [lia | reflexivity].
      * apply (IH Hrest).
Qed.

Lemma lookup_In y t g :
  StronglySorted Z.lt (map fst g) ->
  (In (y, t) g <-> group_lookup y g = Some t).
Proof.
  unfold group_lookup.
  induction g as [|[k' s] rest IH]; simpl; intros Hg.
  - split; [tauto | discriminate].
  - inversion Hg as [|? ? Hrest Hall]; subst.
    destruct (Z.eqb_spec k' y) as [->|Hne]; simpl.
    + split.
      * intros [E|Hin]; [congruence|].
        apply (in_map fst) in Hin. simpl in Hin.
        rewrite Forall_forall in Hall. specialize (Hall _ Hin). lia.
      * intros [= ->]. now left.
    + rewrite <- (IH Hrest). split; [|tauto].
      intros [E|Hin]; [congruence | assumption].
Qed.

Lemma rows_of_year_snoc y df r :
  rows_of_year y (df ++ [r])
  = rows_of_year y df ++ (if year r =? y then [r] else []).
Proof. unfold rows_of_year. rewrite filter_app. reflexivity. Qed.

Lemma expected_total_snoc y df r :
  expected_total y (df ++ [r])
  = if y =? year r
    then Some (Int64.add
                 (match expected_total (year r) df with Some s => s | None => 0 end)
                 (registrations r))
    else expected_total y df.
Proof.
  unfold expected_total. rewrite rows_of_year_snoc, (Z.eqb_sym y).
  destruct (Z.eqb_spec (year r) y) as [<-|Hne].
  - destruct (rows_of_year (year r) df) as [|r0 rs] eqn:E.
    + reflexivity.
    + rewrite <- E.
      assert (Hne : rows_of_year (year r) df ++ [r] <> []) by (rewrite E; discriminate).
      destruct (rows_of_year (year r) df ++ [r]) as [|a l] eqn:E'; [congruence|].
      rewrite <- E'. f_equal. unfold Int64.add.
      rewrite !sum_wrap, map_app, Zsum_app, wrap_add_l. simpl. f_equal. lia.
  - rewrite app_nil_r. reflexivity.
Qed.

Lemma fold_accumulate_totals df pre g :
  StronglySorted Z.lt (map fst g) ->
  (forall y, group_lookup y g = expected_total y pre) ->
  let g' :=
    fold_left
      (fun g r => Pandas_groupby.accumulate Z.compare (year r) (registrations r) g)
      df g in
  StronglySorted Z.lt (map fst g')
  /\ forall y, group_lookup y g' = expected_total y (pre ++ df).
Proof.
  revert pre g. induction df as [|r df IH]; intros pre g Hs Hl; simpl.
  - rewrite app_nil_r. auto.
  - replace (pre ++ r :: df) with ((pre ++ [r]) ++ df)
      by (rewrite <- app_assoc; reflexivity).
    apply IH.
    + now apply accumulate_sorted.
    + intros y. rewrite lookup_accumulate by assumption.
      rewrite expected_total_snoc, Hl, Hl. reflexivity.
Qed.

Lemma yoy_totals_spec df :
  StronglySorted Z.lt (map fst (yoy_totals df))
  /\ forall y t, In (y, t) (yoy_totals df) <-> expected_total y df = Some t.
Proof.
  destruct (@fold_accumulate_totals df [] []) as [Hs Hl].
  - constructor.
  - reflexivity.
  - simpl in Hl. split; [exact Hs|].
    intros y t. rewrite <- Hl. now apply lookup_In.
Qed.

End YearTotals.

Lemma expected_total_iff y t df :
  expected_total y df = Some t <->
  (exists r, In r df /\ year r = y)
  /\ t = Int64.sum (map registrations (rows_of_year y df)).
Proof.
  unfold expected_total.
  destruct (rows_of_year y df) as [|r0 rs] eqn:E.
  - split; [discriminate|]. intros [(r & Hr & Hy) _].
    assert (In r (rows_of_year y df)).
    { unfold rows_of_year. apply filter_In. split; [assumption | now apply Z.eqb_eq]. }
    rewrite E in *. contradiction.
  - split.
    + intros [= <-]. split; [|reflexivity].
      exists r0. assert (H : In r0 (rows_of_year y df)) by (rewrite E; now left).
      unfold rows_of_year in H. apply filter_In in H. destruct H as [H1 H2].
      apply Z.eqb_eq in H2. auto.
    + intros [_ ->]. reflexivity.
Qed.

(** The code's growth column is the specification's. *)
Lemma div_shift_cons p x l :
  div_series (x :: l) (p :: removelast (x :: l))
  = F64.div x p :: div_series l (x :: removelast l).
Proof.
  destruct l as [|y l]; [reflexivity|].
  change (removelast (x :: y :: l)) with (x :: removelast (y :: l)).
  reflexivity.
Qed.

Lemma yoy_rows_from prev p (totals : list (Z * Z)) :
  (forall t, spec_growth prev t
             = F64.mul (F64.sub (F64.div (F64.of_int t) p) (F64.of_int 1))
                       (F64.of_int 100)) ->
  map (fun '((y, t), g) => mkYoy y t g)
    (combine totals
       (map (fun q => F64.mul q (F64.of_int 100))
          (map (fun q => F64.sub q (F64.of_int 1))
             (div_series (map F64.of_int (map snd totals))
                (p :: removelast (map F64.of_int (map snd totals)))))))
  = spec_yoy prev totals.
Proof.
  revert prev p. induction totals as [|[y t] rest IH]; intros prev p Hp.
  - reflexivity.
  - cbn [map snd]. rewrite div_shift_cons. cbn [map combine spec_yoy].
    rewrite Hp. f_equal. apply IH. reflexivity.
Qed.

Lemma div_nan x : F64.div x F64.NaN = F64.NaN.
Proof. destruct x; reflexivity. Qed.

Lemma yoy_df_spec df : yoy_df df = spec_yoy None (yoy_totals df).
Proof.
  unfold yoy_df, pct_change, shift.
  destruct (yoy_totals df) as [|[y t] rest] eqn:E; [reflexivity|].
  set (totals := (y, t) :: rest).
  change (map F64.of_int (map snd totals))
    with (F64.of_int t :: map F64.of_int (map snd rest)) at 2.
  cbv iota. apply yoy_rows_from.
  intros t0. rewrite div_nan. reflexivity.
Qed.

Lemma spec_yoy_years prev totals :
  map yoy_year (spec_yoy prev totals) = map fst totals.
Proof.
  revert prev. induction totals as [|[y t] rest IH]; intros prev; simpl;
    [reflexivity | now rewrite IH].
Qed.

(** C2. The growth table has one row per year present, in ascending year
    order, carrying the int64 sum of that year's registrations; its growth
    column is absent (NaN) in the first row and
    [(this / previous - 1) * 100] in every later row. Totals of 1000 for
    2019 and 1500 for 2020 give NaN and exactly 50.0. *)
Theorem yoy_growth_table (df : DataFrame) :
  yoy_df df = spec_yoy None (yoy_totals df)
  /\ StronglySorted Z.lt (map yoy_year (yoy_df df))
  /\ (forall y t, In (y, t) (yoy_totals df) <->
        (exists r, In r df /\ year r = y)
        /\ t = Int64.sum (map registrations (rows_of_year y df)))
  /\ (forall row rest, yoy_df df = row :: rest -> growth_pct row = F64.NaN)
  /\ (yoy_totals df = [(2019, 1000); (2020, 1500)] ->
      yoy_df df = [mkYoy 2019 1000 F64.NaN; mkYoy 2020 1500 (F64.of_int 50)]).
Proof.
  destruct (yoy_totals_spec df) as [Hsorted Htotals].
  split; [apply yoy_df_spec|].
  split; [rewrite yoy_df_spec, spec_yoy_years; exact Hsorted|].
  split; [intros y t; rewrite Htotals; apply expected_total_iff|].
  split.
  - intros row rest. rewrite yoy_df_spec.
    destruct (yoy_totals df) as [|[y t] ts]; simpl; [discriminate|].
    intros [= <- _]. reflexivity.
  - intros E. rewrite yoy_df_spec, E. reflexivity.
Qed.

Lemma yoy_growth_table_witness :
  yoy_df totals_2019_2020
  = [mkYoy 2019 1000 F64.NaN; mkYoy 2020 1500 (F64.of_int 50)].
Proof.
  apply (proj2 (proj2 (proj2 (proj2 (yoy_growth_table totals_2019_2020))))).
  vm_compute. reflexivity.
Defined.

(* ================================================================= *)
(** * The headline growth metric *)

Lemma div_by_zero_not_finite x :
  F64.is_finite
    (F64.mul (F64.sub (F64.div x (F64.of_int 0)) (F64.of_int 1)) (F64.of_int 100))
  = false.
Proof. destruct x as [[|]|[|]| |[|] m e]; reflexivity. Qed.

(** C5, as the claim states it: the two-record scenario does not evaluate
    to 10.0. *)
Lemma yoy_growth_scenario_not_10 : yoy_growth hero_2022_2023 <> F64.of_int 10.
Proof. vm_compute. discriminate. Qed.

(** C5, amended. [yoy_growth] raises nothing: with a zero total for 2022
    its value is not a finite number (NaN when the 2023 total is zero as
    well, an infinity for instance when only 2023 is present); in the
    two-record scenario it is 10.000000000000009, five units in the last
    place above 10.0. *)
Theorem yoy_growth_behaviour :
  (forall df, year_total 2022 df = 0 ->
     F64.is_finite (yoy_growth df) = false
     /\ (year_total 2023 df = 0 -> yoy_growth df = F64.NaN))
  /\ yoy_growth hero_2023_only = S754_infinity false
  /\ yoy_growth [] = F64.NaN
  /\ yoy_growth hero_2022_2023 = f64_10_plus_5ulp
  /\ f64_10_plus_5ulp = S754_finite false (Z.to_pos (10 * 2 ^ 49 + 5)) (-49)
  /\ F64.of_int 10 = S754_finite false (Z.to_pos (10 * 2 ^ 49)) (-49).
Proof.
  split.
  - intros df H. unfold yoy_growth. rewrite H. split.
    + apply div_by_zero_not_finite.
    + intros ->. reflexivity.
  - repeat split.
Qed.

Lemma yoy_growth_behaviour_witness :
  F64.is_finite (yoy_growth hero_2023_only) = false.
Proof.
  apply (proj1 yoy_growth_behaviour hero_2023_only). reflexivity.
Defined.

(* ================================================================= *)
(** * The generator *)

Section GeneratorFacts.
Context {np : NumPy}.

(** A property of the accumulator that every iteration preserves holds
    when the loop ends. *)
Lemma for_each_inv {A S} (I : S -> Prop) (xs : list A) (body : A -> S -> Gen.M S) :
  (forall x s g s' g', In x xs -> I s -> body x s g = Some (s', g') -> I s') ->
  forall s g s' g', I s -> Gen.for_each xs body s g = Some (s', g') -> I s'.
Proof.
  induction xs as [|x xs IH]; intros Hbody s g s' g' Hs; simpl.
  - unfold Gen.ret. intros [= <- _]. exact Hs.
  - unfold Gen.bind. destruct (body x s g) as [[s1 g1]|] eqn:E; [|discriminate].
    apply IH.
    + intros y t h t' h' Hy. apply Hbody. now right.
    + eapply Hbody; [now left | exact Hs | exact E].
Qed.

(** What one pass through the loop body yields. *)
Lemma mock_row_inv d cat manu g row g' :
  mock_row d cat manu g = Some (row, g') ->
  exists regs,
    let base := fst (randint 1000 5000 g) in
    let noise := fst (normal (F64.of_int 0) (F64.lit 1 10)
                             (snd (randint 1000 5000 g))) in
    F64.py_int (scaled base d noise) = Some regs
    /\ row = {| date := d;
                year := dyear d;
                quarter := ("Q" ++ str ((dmonth d - 1) / 3 + 1))%string;
                month := dmonth d;
                category := cat;
                manufacturer := manu;
                registrations := Z.max 1000 regs |}.
Proof.
  unfold mock_row, Gen.bind, Gen.draw, Gen.lift, Gen.ret.
  destruct (randint 1000 5000 g) as [base g1]; cbn [fst snd].
  destruct (normal (F64.of_int 0) (F64.lit 1 10) g1) as [noise g2]; cbn [fst snd].
  destruct (F64.py_int (scaled base d noise)) as [regs|]; [|discriminate].
  intros [= <- _]. exists regs. auto.
Qed.

(** A property of every row the loop body can produce holds of every row
    of the generated frame. *)
Lemma generate_rows (P : Row -> Prop) ds cats table :
  (forall d cat manu g row g',
      In d ds -> In cat cats -> In manu (dict_get table cat []) ->
      mock_row d cat manu g = Some (row, g') -> P row) ->
  forall g df g', generate ds cats table g = Some (df, g') -> Forall P df.
Proof.
  intros Hrow g df g'. unfold generate.
  apply (for_each_inv (Forall P)); [|constructor].
  intros d data g1 data1 g1' Hd Hdata.
  apply (for_each_inv (Forall P)); [|exact Hdata].
  intros cat data2 g2 data2' g2' Hcat Hdata2.
  apply (for_each_inv (Forall P)); [|exact Hdata2].
  intros manu data3 g3 data3' g3' Hmanu Hdata3.
  unfold Gen.bind, Gen.ret.
  destruct (mock_row d cat manu g3) as [[row g4]|] eqn:E; [|discriminate].
  intros [= <- _]. apply Forall_app. split; [assumption|].
  constructor; [|constructor]. eapply Hrow; eauto.
Qed.

(** C4. Every row of the mock data has at least 1000 registrations. *)
Theorem mock_registrations_min g df g' :
  load_data None g = Some (df, g') -> Forall (fun r => 1000 <= registrations r) df.
Proof.
  apply generate_rows. intros d cat manu g0 row g0' _ _ _ H.
  apply mock_row_inv in H. destruct H as (regs & _ & ->). simpl. lia.
Qed.

(** C8. Every row of the mock data pairs its category with one of that
    category's manufacturers. *)
Theorem mock_manufacturer_of_category g df g' :
  load_data None g = Some (df, g') ->
  Forall (fun r =>
    In (manufacturer r) (dict_get manufacturers (category r) [])
    /\ ((category r = "2W"
         /\ In (manufacturer r) ["Hero"; "Honda"; "Bajaj"; "TVS"; "Royal Enfield"])
        \/ (category r = "3W"
            /\ In (manufacturer r) ["Bajaj"; "Mahindra"; "Piaggio"; "TVS"])
        \/ (category r = "4W"
            /\ In (manufacturer r)
                 ["Maruti"; "Hyundai"; "Tata"; "Mahindra"; "Kia"; "Toyota"])))%string
    df.
Proof.
  apply generate_rows. intros d cat manu g0 row g0' _ Hcat Hmanu H.
  apply mock_row_inv in H. destruct H as (regs & _ & ->). simpl.
  split; [exact Hmanu|].
  destruct Hcat as [<-|[<-|[<-|[]]]]; simpl in Hmanu; auto.
Qed.

(** C3, amended. Every row of the mock data carries
    [max(1000, int(base * (1 + growth + seasonality + noise)))] for a
    [base] in [1000, 5000) and a [noise], each drawn for that row, with
    growth and seasonality taken from the row's date: the product is
    truncated toward zero, then clamped. *)
Theorem mock_registrations_truncated {nps : NumPySpec np} g df g' :
  load_data None g = Some (df, g') ->
  Forall (fun r =>
    exists g0 base noise regs,
      base = fst (randint 1000 5000 g0)
      /\ noise = fst (normal (F64.of_int 0) (F64.lit 1 10)
                             (snd (randint 1000 5000 g0)))
      /\ 1000 <= base < 5000
      /\ growth_of (date r)
         = F64.mul (F64.of_int (year r - 2019)) (F64.lit 15 100)
      /\ seasonality_of (date r)
         = F64.mul (np_sin (F64.div (F64.mul (F64.of_int (month r - 1)) np_pi)
                                    (F64.of_int 6)))
                   (F64.lit 2 10)
      /\ F64.py_int (scaled base (date r) noise) = Some regs
      /\ registrations r = Z.max 1000 regs) df.
Proof.
  apply generate_rows. intros d cat manu g0 row g0' _ _ _ H.
  apply mock_row_inv in H. destruct H as (regs & Hregs & ->). simpl in *.
  exists g0, (fst (randint 1000 5000 g0)),
    (fst (normal (F64.of_int 0) (F64.lit 1 10) (snd (randint 1000 5000 g0)))),
    regs.
  repeat split; try assumption; apply randint_range; lia.
Qed.

End GeneratorFacts.

Lemma replay_spec : NumPySpec replay.
Proof.
  constructor. intros lo hi [zs xs] H. simpl.
  destruct zs as [|z zs]; simpl; [lia|].
  pose proof (Z.mod_pos_bound z (hi - lo)). lia.
Qed.

Lemma mock_registrations_min_witness :
  exists df g',
    @load_data replay None demo_draws = Some (df, g')
    /\ Forall (fun r => 1000 <= registrations r) df.
Proof.
  destruct (@load_data replay None demo_draws) as [[df g']|] eqn:E.
  - exists df, g'. split; [reflexivity|].
    exact (@mock_registrations_min replay demo_draws df g' E).
  - vm_compute in E. discriminate.
Defined.

Lemma mock_manufacturer_of_category_witness :
  exists df g',
    @load_data replay None demo_draws = Some (df, g')
    /\ Forall (fun r => In (manufacturer r) (dict_get manufacturers (category r) [])) df.
Proof.
  destruct (@load_data replay None demo_draws) as [[df g']|] eqn:E.
  - exists df, g'. split; [reflexivity|].
    eapply Forall_impl;
      [|exact (@mock_manufacturer_of_category replay demo_draws df g' E)].
    intros r [H _]. exact H.
  - vm_compute in E. discriminate.
Defined.

Lemma mock_registrations_truncated_witness :
  exists df g',
    @load_data replay None demo_draws = Some (df, g')
    /\ Forall (fun r =>
         exists base noise regs,
           1000 <= base < 5000
           /\ F64.py_int (@scaled replay base (date r) noise) = Some regs
           /\ registrations r = Z.max 1000 regs) df.
Proof.
  destruct (@load_data replay None demo_draws) as [[df g']|] eqn:E.
  - exists df, g'. split; [reflexivity|].
    eapply Forall_impl;
      [|exact (@mock_registrations_truncated replay replay_spec demo_draws df g' E)].
    intros r (g0 & base & noise & regs & _ & _ & Hb & _ & _ & Hi & Hr).
    exists base, noise, regs. auto.
  - vm_compute in E. discriminate.
Defined.

(** C3, as the claim states it: with the draws [base = 2000] and
    [noise = 0.00045] the first row of the mock data (January 2019, where
    growth and seasonality are both 0.0) has 2000 registrations, the
    truncation of 2000.9, while the rounded value is 2001. *)
Lemma mock_registrations_not_rounded :
  exists df g' row,
    @load_data replay None draws_2000_9 = Some (df, g')
    /\ hd_error df = Some row
    /\ date row = jan_2019
    /\ fst (@randint replay 1000 5000 draws_2000_9) = 2000
    /\ fst (@normal replay (F64.of_int 0) (F64.lit 1 10)
              (snd (@randint replay 1000 5000 draws_2000_9)))
       = F64.lit 45 100000
    /\ @growth_of jan_2019 = S754_zero false
    /\ @seasonality_of replay jan_2019 = S754_zero false
    /\ registrations row = 2000
    /\ @spec_registrations replay 2000 jan_2019 (F64.lit 45 100000) = Some 2001
    /\ Some (registrations row)
       <> @spec_registrations replay 2000 jan_2019 (F64.lit 45 100000).
Proof.
  eexists. eexists. eexists.
  split; [vm_compute; reflexivity|].
  split; [reflexivity|].
  repeat split. vm_compute. discriminate.
Qed.

(* ================================================================= *)
(** * More on the filter *)

Lemma filter_filter_and {A} (f g : A -> bool) (l : list A) :
  filter g (filter f l) = filter (fun x => f x && g x) l.
Proof.
  induction l as [|x l IH]; simpl; [reflexivity|].
  destruct (f x); simpl; [destruct (g x)|]; now rewrite IH.
Qed.

Lemma filter_length_le {A} (f : A -> bool) (l : list A) :
  (List.length (filter f l) <= List.length l)%nat.
Proof.
  induction l as [|x l IH]; simpl; [lia|]. destruct (f x); simpl; lia.
Qed.

Lemma Zsum_filter_le (f : Row -> bool) (df : DataFrame) :
  Forall (fun r => 0 <= registrations r) df ->
  0 <= Zsum (map registrations (filter f df)) <= Zsum (map registrations df).
Proof.
  induction 1 as [|r df Hr Hdf IH]; simpl; [lia|].
  destruct (f r); simpl; lia.
Qed.

Lemma total_reg_exact (df : DataFrame) :
  Forall (fun r => 0 <= registrations r) df ->
  Zsum (map registrations df) < Int64.half ->
  total_reg df = Zsum (map registrations df).
Proof.
  intros Hpos Hlt. unfold total_reg, Pandas.column. rewrite sum_wrap.
  apply wrap_small.
  assert (0 <= Zsum (map registrations df)).
  { apply Zsum_nonneg. now apply Forall_map. }
  unfold Int64.half in *. lia.
Qed.

Lemma filter_all_false_on {A} (f : A -> bool) (l : list A) :
  (forall x, In x l -> f x = false) -> filter f l = [].
Proof.
  induction l as [|x l IH]; simpl; intros H; [reflexivity|].
  rewrite (H x (or_introl eq_refl)). apply IH. auto.
Qed.

Lemma Forall_filter {A} (P : A -> Prop) (f : A -> bool) (l : list A) :
  Forall P l -> Forall P (filter f l).
Proof.
  induction 1 as [|x l Hx Hl IH]; simpl; [constructor|].
  destruct (f x); [constructor|]; assumption.
Qed.

(** X1. Two selections applied one after the other keep the rows that
    satisfy both, whichever is applied first. *)
Theorem filter_compose (df : DataFrame) (dr1 dr2 : Date * Date)
    (c1 m1 c2 m2 : list string) :
  filtered_df (filtered_df df dr1 c1 m1) dr2 c2 m2
  = filter (fun r => keeps dr1 c1 m1 r && keeps dr2 c2 m2 r) df
  /\ filtered_df (filtered_df df dr1 c1 m1) dr2 c2 m2
     = filtered_df (filtered_df df dr2 c2 m2) dr1 c1 m1.
Proof.
  rewrite !filtered_df_filter, !filter_filter_and. split; [reflexivity|].
  apply filter_ext. intros r. apply andb_comm.
Qed.

(** X2. A date range whose start lies after its end selects nothing. *)
Theorem filter_reversed_range (df : DataFrame) (dr : Date * Date)
    (cats mans : list string) :
  date_leb (fst dr) (snd dr) = false -> filtered_df df dr cats mans = [].
Proof.
  intros Hrev. rewrite filtered_df_filter. apply filter_all_false. intros r.
  destruct (keeps dr cats mans r) eqn:E; [|reflexivity].
  apply keeps_iff in E. destruct E as (H1 & H2 & _).
  assert (H : date_le (fst dr) (snd dr)) by (eapply date_le_trans; eauto).
  apply date_leb_iff in H. congruence.
Qed.

Lemma filter_reversed_range_witness :
  filtered_df hero_2022_2023 (mkDate 2023 12 31, mkDate 2022 1 1)
    ["2W"%string] ["Hero"%string] = [].
Proof. apply filter_reversed_range. reflexivity. Defined.

(** X3. The filter never lengthens the frame, and when the counts are
    non-negative and the frame's exact total fits int64, the total of the
    filtered frame lies between 0 and the total of the frame. *)
Theorem filter_narrows (df : DataFrame) (dr : Date * Date) (cats mans : list string) :
  (List.length (filtered_df df dr cats mans) <= List.length df)%nat
  /\ (Forall (fun r => 0 <= registrations r) df ->
      Zsum (map registrations df) < Int64.half ->
      0 <= total_reg (filtered_df df dr cats mans) <= total_reg df).
Proof.
  rewrite filtered_df_filter. split; [apply filter_length_le|].
  intros Hpos Hlt.
  pose proof (Zsum_filter_le (keeps dr cats mans) Hpos) as Hle.
  rewrite (total_reg_exact Hpos Hlt).
  rewrite total_reg_exact; [exact Hle | now apply Forall_filter | lia].
Qed.

Lemma filter_narrows_witness :
  0 <= total_reg (filtered_df totals_2019_2020
                    (mkDate 2019 1 1, mkDate 2019 12 31)
                    ["2W"; "3W"]%string ["Hero"; "TVS"]%string)
    <= total_reg totals_2019_2020.
Proof.
  apply (proj2 (filter_narrows totals_2019_2020 _ _ _)).
  - repeat constructor; simpl; lia.
  - vm_compute. reflexivity.
Defined.

(* ================================================================= *)
(** * The latest month and the widget options *)

Lemma fold_max_member d s :
  In (fold_left Pandas.date_max2 s d) (d :: s).
Proof.
  revert d. induction s as [|y s IH]; intros d; simpl; [now left|].
  destruct (IH (Pandas.date_max2 d y)) as [H|H]; [|now right; right].
  rewrite <- H. unfold Pandas.date_max2.
  destruct (date_leb d y); [right; left | left]; reflexivity.
Qed.

(** X4. On a non-empty frame the latest date is a date of the frame that
    no row's date exceeds, and the latest month is that date formatted;
    only the empty frame has none. *)
Theorem latest_date_max (df : DataFrame) :
  match latest_date df with
  | Some d =>
      (exists r, In r df /\ date r = d)
      /\ (forall r, In r df -> date_le (date r) d)
      /\ latest_month df = Some (strftime_B_Y d)
  | None => df = [] /\ latest_month df = None
  end.
Proof.
  unfold latest_month. destruct (latest_date df) as [d|] eqn:E.
  - split; [|split; [|reflexivity]].
    + unfold latest_date, Pandas.column in E.
      destruct df as [|r0 df]; simpl in E; [discriminate|].
      injection E as <-.
      pose proof (fold_max_member (date r0) (map date df)) as H.
      change (date r0 :: map date df) with (map date (r0 :: df)) in H.
      apply in_map_iff in H. destruct H as (r & Hr & Hin). eauto.
    + intros r Hr. apply (series_max_ge _ E).
      unfold Pandas.column. now apply in_map.
  - split; [|reflexivity]. destruct df; [reflexivity | discriminate].
Qed.

Lemma unique_fold_NoDup s seen :
  NoDup seen ->
  NoDup (fold_left (fun seen v => if Pandas.mem v seen then seen else seen ++ [v])
                   s seen).
Proof.
  revert seen. induction s as [|x s IH]; intros seen Hn; simpl; [exact Hn|].
  apply IH. destruct (Pandas.mem x seen) eqn:E; [exact Hn|].
  assert (Hx : ~ In x seen).
  { intros Hin. apply mem_In in Hin. congruence. }
  clear E IH. induction Hn as [|y l Hy Hl IHl]; simpl.
  - constructor; [intros [] | constructor].
  - constructor.
    + rewrite in_app_iff. simpl. intros [H|[H|[]]]; [tauto|].
      apply Hx. now left.
    + apply IHl. intros H. apply Hx. now right.
Qed.

(** X5. The options offered for categories and manufacturers list each
    value present in the frame exactly once, and nothing else. *)
Theorem widget_options (df : DataFrame) :
  NoDup (default_categories df)
  /\ NoDup (default_manufacturers df)
  /\ (forall c, In c (default_categories df) <-> exists r, In r df /\ category r = c)
  /\ (forall m, In m (default_manufacturers df)
                <-> exists r, In r df /\ manufacturer r = m).
Proof.
  unfold default_categories, default_manufacturers, Pandas.column.
  split; [apply unique_fold_NoDup; constructor|].
  split; [apply unique_fold_NoDup; constructor|].
  split; intros v; rewrite unique_In, in_map_iff;
    split; intros (r & H1 & H2); exists r; tauto.
Qed.

(* ================================================================= *)
(** * The headline metric and the growth table *)

Lemma year_total_rows y df :
  year_total y df = Int64.sum (map registrations (rows_of_year y df)).
Proof.
  unfold year_total, Pandas.cmp_scalar, Pandas.column, rows_of_year.
  rewrite map_map, bool_index_map. reflexivity.
Qed.

Lemma year_total_expected y df :
  year_total y df = match expected_total y df with Some t => t | None => 0 end.
Proof.
  rewrite year_total_rows. unfold expected_total.
  destruct (rows_of_year y df); reflexivity.
Qed.

Lemma year_total_in_table y t df :
  In (y, t) (yoy_totals df) -> year_total y df = t.
Proof.
  intros H. apply (proj2 (yoy_totals_spec df)) in H.
  rewrite year_total_expected, H. reflexivity.
Qed.

(** X6. The per-year totals behind the headline metric are the totals of
    the growth table: a year in the table has the table's total, and a
    year without rows has total 0. *)
Theorem year_total_table (df : DataFrame) :
  (forall y t, In (y, t) (yoy_totals df) -> year_total y df = t)
  /\ (forall y, (forall r, In r df -> year r <> y) -> year_total y df = 0).
Proof.
  split; [intros y t; apply year_total_in_table|].
  intros y Hy. rewrite year_total_rows. unfold rows_of_year.
  rewrite filter_all_false_on; [reflexivity|].
  intros r Hr. apply Z.eqb_neq. now apply Hy.
Qed.

Lemma spec_yoy_In row prev totals :
  In row (spec_yoy prev totals) ->
  In (yoy_year row, yoy_registrations row) totals.
Proof.
  revert prev. induction totals as [|[y t] rest IH]; intros prev; simpl; [tauto|].
  intros [<-|H]; [now left | right; eauto].
Qed.

(** In a table with strictly ascending years, the row of year [y + 1] has
    the row of year [y] as its predecessor. *)
Lemma spec_yoy_adjacent y t row prev totals :
  StronglySorted Z.lt (map fst totals) ->
  In (y, t) totals ->
  In row (spec_yoy prev totals) ->
  yoy_year row = y + 1 ->
  growth_pct row = spec_growth (Some t) (yoy_registrations row).
Proof.
  revert prev. induction totals as [|[y0 t0] rest IH]; intros prev Hs Hin Hrow Hy;
    [destruct Hin|].
  simpl in Hs. inversion Hs as [|? ? Hrest Hall]; subst.
  rewrite Forall_forall in Hall.
  assert (Hgt : forall k v, In (k, v) rest -> y0 < k).
  { intros k v Hk. apply Hall. change k with (fst (k, v)). now apply in_map. }
  simpl in Hrow. destruct Hrow as [<-|Hrow].
  - simpl in Hy. destruct Hin as [[= -> ->]|Hin]; [lia|].
    apply Hgt in Hin. lia.
  - destruct Hin as [[= -> ->]|Hin]; [|eapply IH; eauto].
    destruct rest as [|[y1 t1] rest']; [destruct Hrow|].
    simpl in Hrow. destruct Hrow as [<-|Hrow]; [reflexivity|].
    apply spec_yoy_In in Hrow.
    inversion Hrest as [|? ? Hrest' Hall']; subst.
    rewrite Forall_forall in Hall'.
    assert (y1 < yoy_year row).
    { apply Hall'. change (yoy_year row) with (fst (yoy_year row, yoy_registrations row)).
      now apply in_map. }
    pose proof (Hgt y1 t1 (or_introl eq_refl)). lia.
Qed.

(** X7. When the frame has rows of 2022, the growth the table reports for
    2023 is the headline metric. *)
Theorem yoy_growth_in_table (df : DataFrame) (row : YoyRow) :
  (exists r, In r df /\ year r = 2022) ->
  In row (yoy_df df) -> yoy_year row = 2023 ->
  growth_pct row = yoy_growth df.
Proof.
  intros (r & Hr & Hy) Hrow H2023.
  destruct (yoy_totals_spec df) as [Hs Ht].
  rewrite yoy_df_spec in Hrow.
  assert (H22 : In (2022, year_total 2022 df) (yoy_totals df)).
  { apply Ht. rewrite year_total_expected. unfold expected_total.
    destruct (rows_of_year 2022 df) as [|r0 rs] eqn:E; [|reflexivity].
    assert (Hin : In r (rows_of_year 2022 df)).
    { unfold rows_of_year. apply filter_In. split; [exact Hr | now apply Z.eqb_eq]. }
    rewrite E in Hin. destruct Hin. }
  rewrite (@spec_yoy_adjacent 2022 _ row None _ Hs H22 Hrow H2023).
  apply spec_yoy_In in Hrow. rewrite H2023 in Hrow.
  rewrite <- (@year_total_in_table _ _ _ Hrow). reflexivity.
Qed.

Lemma yoy_growth_in_table_witness :
  growth_pct (mkYoy 2023 1100 f64_10_plus_5ulp) = yoy_growth hero_2022_2023.
Proof.
  apply yoy_growth_in_table.
  - eexists. split; [left; reflexivity | reflexivity].
  - vm_compute. right. left. reflexivity.
  - reflexivity.
Defined.

(** X8. A selection of rows that keeps every row of 2022 and of 2023 does
    not change the headline metric. *)
Theorem yoy_growth_other_years (df : DataFrame) (keep : Row -> bool) :
  (forall r, In r df -> year r = 2022 \/ year r = 2023 -> keep r = true) ->
  yoy_growth (filter keep df) = yoy_growth df.
Proof.
  intros Hkeep.
  assert (H : forall y, y = 2022 \/ y = 2023 ->
                        year_total y (filter keep df) = year_total y df).
  { intros y Hy. rewrite !year_total_rows. unfold rows_of_year.
    rewrite filter_filter_and. f_equal. f_equal.
    clear - Hkeep Hy. induction df as [|r df IH]; simpl; [reflexivity|].
    rewrite IH by (intros; apply Hkeep; auto; now right).
    destruct (Z.eqb_spec (year r) y) as [E|E].
    - rewrite (Hkeep r (or_introl eq_refl)) by (rewrite E; exact Hy). reflexivity.
    - rewrite andb_false_r. reflexivity. }
  unfold yoy_growth. rewrite (H 2022), (H 2023); auto.
Qed.

Lemma yoy_growth_other_years_witness :
  yoy_growth (filter (fun r => 2021 <? year r) (totals_2019_2020 ++ hero_2022_2023))
  = yoy_growth (totals_2019_2020 ++ hero_2022_2023).
Proof.
  apply yoy_growth_other_years.
  intros r _ [H|H]; rewrite H; reflexivity.
Defined.

(* ================================================================= *)
(** * Grouped frames over any ordered key *)

Section OrderedGroups.
Context {K : Type} (cmp : K -> K -> comparison) {O : KeyOrder cmp}.
Variable key : Row -> K.

Lemma is_Eq_true a b : is_Eq (cmp a b) = true <-> a = b.
Proof.
  split.
  - destruct (cmp a b) eqn:E; try discriminate. intros _. now apply cmp_eq.
  - intros ->. now rewrite cmp_refl.
Qed.

Lemma is_Eq_sym a b : is_Eq (cmp a b) = is_Eq (cmp b a).
Proof.
  destruct (is_Eq (cmp a b)) eqn:E.
  - apply is_Eq_true in E. subst. symmetry. now apply is_Eq_true.
  - destruct (is_Eq (cmp b a)) eqn:E'; [|reflexivity].
    apply is_Eq_true in E'. subst.
    assert (is_Eq (cmp a a) = true) by now apply is_Eq_true. congruence.
Qed.

Lemma key_lt_not_Eq a b : key_lt cmp a b -> is_Eq (cmp b a) = false.
Proof.
  unfold key_lt. intros H. rewrite is_Eq_sym. now rewrite H.
Qed.

Lemma key_lt_irrefl a : ~ key_lt cmp a a.
Proof. unfold key_lt. rewrite cmp_refl. discriminate. Qed.

Lemma accumulate_keys_by (P : K -> Prop) k v g :
  P k -> Forall P (map fst g) ->
  Forall P (map fst (Pandas_groupby.accumulate cmp k v g)).
Proof.
  intros Hk.
  induction g as [|[k' s] rest IH]; simpl; intros Hg.
  - constructor; auto.
  - inversion Hg; subst.
    destruct (cmp k k'); simpl; repeat (constructor; auto).
Qed.

Lemma accumulate_sorted_by k v g :
  StronglySorted (key_lt cmp) (map fst g) ->
  StronglySorted (key_lt cmp) (map fst (Pandas_groupby.accumulate cmp k v g)).
Proof.
  induction g as [|[k' s] rest IH]; simpl; intros Hg.
  - repeat constructor.
  - inversion Hg as [|? ? Hrest Hall]; subst.
    destruct (cmp k k') eqn:E; simpl.
    + constructor; assumption.
    + constructor; [assumption|]. constructor; [exact E|].
      eapply Forall_impl; [|exact Hall]. simpl. intros a Ha.
      exact (cmp_lt_trans _ _ _ E Ha).
    + constructor; [now apply IH|].
      apply accumulate_keys_by; [|assumption]. now apply cmp_gt_lt.
Qed.

Lemma lookup_above_by k g :
  Forall (key_lt cmp k) (map fst g) -> lookup_by cmp k g = None.
Proof.
  unfold lookup_by.
  induction g as [|[k' s] rest IH]; simpl; intros Hg; [reflexivity|].
  inversion Hg; subst. rewrite key_lt_not_Eq by assumption. auto.
Qed.

Lemma lookup_accumulate_by y k v g :
  StronglySorted (key_lt cmp) (map fst g) ->
  lookup_by cmp y (Pandas_groupby.accumulate cmp k v g)
  = if is_Eq (cmp y k)
    then Some (Int64.add (match lookup_by cmp k g with Some s => s | None => 0 end) v)
    else lookup_by cmp y g.
Proof.
  unfold lookup_by.
  induction g as [|[k' s] rest IH]; simpl; intros Hg.
  - rewrite (is_Eq_sym k y). destruct (is_Eq (cmp y k)); reflexivity.
  - inversion Hg as [|? ? Hrest Hall]; subst.
    destruct (cmp k k') eqn:E; simpl.
    + apply cmp_eq in E. subst k'.
      rewrite (cmp_refl k). simpl. rewrite (is_Eq_sym k y).
      destruct (is_Eq (cmp y k)); reflexivity.
    + rewrite (is_Eq_sym k y). destruct (is_Eq (cmp y k)) eqn:Ey; [|reflexivity].
      apply is_Eq_true in Ey. subst y.
      rewrite (key_lt_not_Eq E).
      fold (lookup_by cmp k rest). rewrite lookup_above_by; [reflexivity|].
      eapply Forall_impl; [|exact Hall]. simpl. intros a Ha.
      exact (cmp_lt_trans _ _ _ E Ha).
    + pose proof (cmp_gt_lt _ _ E) as E'.
      rewrite (is_Eq_sym k' k), (key_lt_not_Eq E').
      destruct (is_Eq (cmp k' y)) eqn:Ey.
      * apply is_Eq_true in Ey. subst y.
        rewrite (is_Eq_sym k' k), (key_lt_not_Eq E'). reflexivity.
      * apply (IH Hrest).
Qed.

Lemma lookup_In_by y t g :
  StronglySorted (key_lt cmp) (map fst g) ->
  (In (y, t) g <-> lookup_by cmp y g = Some t).
Proof.
  unfold lookup_by.
  induction g as [|[k' s] rest IH]; simpl; intros Hg.
  - split; [tauto | discriminate].
  - inversion Hg as [|? ? Hrest Hall]; subst.
    destruct (is_Eq (cmp k' y)) eqn:Ey; simpl.
    + apply is_Eq_true in Ey. subst k'. split.
      * intros [E|Hin]; [congruence|].
        apply (in_map fst) in Hin. simpl in Hin.
        rewrite Forall_forall in Hall. specialize (Hall _ Hin).
        now apply key_lt_irrefl in Hall.
      * intros [= ->]. now left.
    + rewrite <- (IH Hrest). split; [|tauto].
      intros [[= -> ->]|Hin]; [|assumption].
      assert (is_Eq (cmp y y) = true) by now apply is_Eq_true. congruence.
Qed.

Lemma expected_by_snoc y df r :
  expected_by cmp key y (df ++ [r])
  = if is_Eq (cmp y (key r))
    then Some (Int64.add
                 (match expected_by cmp key (key r) df with Some s => s | None => 0 end)
                 (registrations r))
    else expected_by cmp key y df.
Proof.
  unfold expected_by, rows_with. rewrite filter_app. simpl.
  rewrite (is_Eq_sym y). destruct (is_Eq (cmp (key r) y)) eqn:Ey.
  - apply is_Eq_true in Ey. subst y.
    destruct (filter (fun r0 => is_Eq (cmp (key r0) (key r))) df) as [|r0 rs] eqn:E.
    + reflexivity.
    + simpl. f_equal. unfold Int64.add.
      change (registrations r0 :: map registrations (rs ++ [r]))
        with (map registrations ((r0 :: rs) ++ [r])).
      change (registrations r0 :: map registrations rs)
        with (map registrations (r0 :: rs)).
      rewrite !sum_wrap, map_app, Zsum_app, wrap_add_l. simpl. f_equal. lia.
  - rewrite app_nil_r. reflexivity.
Qed.

Lemma fold_accumulate_by df pre g :
  StronglySorted (key_lt cmp) (map fst g) ->
  (forall y, lookup_by cmp y g = expected_by cmp key y pre) ->
  let g' :=
    fold_left
      (fun g r => Pandas_groupby.accumulate cmp (key r) (registrations r) g)
      df g in
  StronglySorted (key_lt cmp) (map fst g')
  /\ forall y, lookup_by cmp y g' = expected_by cmp key y (pre ++ df).
Proof.
  revert pre g. induction df as [|r df IH]; intros pre g Hs Hl; simpl.
  - rewrite app_nil_r. auto.
  - replace (pre ++ r :: df) with ((pre ++ [r]) ++ df)
      by (rewrite <- app_assoc; reflexivity).
    apply IH.
    + now apply accumulate_sorted_by.
    + intros y. rewrite lookup_accumulate_by by assumption.
      rewrite expected_by_snoc, Hl, Hl. reflexivity.
Qed.

Lemma rows_with_In k r df :
  In r (rows_with cmp key k df) <-> In r df /\ key r = k.
Proof. unfold rows_with. rewrite filter_In, is_Eq_true. reflexivity. Qed.

Lemma sorted_by_NoDup (l : list K) : StronglySorted (key_lt cmp) l -> NoDup l.
Proof.
  induction 1 as [|a l Hl IH Hall]; constructor; [|assumption].
  intros Hin. rewrite Forall_forall in Hall.
  exact (key_lt_irrefl (Hall _ Hin)).
Qed.

(** The grouped frame: keys strictly ascending, hence distinct; one entry
    for each key that occurs, carrying the int64 sum of its rows. *)
Lemma groupby_table df :
  let G := Pandas_groupby.groupby_sum cmp key df in
  StronglySorted (key_lt cmp) (map fst G)
  /\ NoDup (map fst G)
  /\ forall k t,
       In (k, t) G <->
       (exists r, In r df /\ key r = k)
       /\ t = Int64.sum (map registrations (rows_with cmp key k df)).
Proof.
  destruct (@fold_accumulate_by df [] []) as [Hs Hl];
    [constructor | reflexivity |].
  simpl in Hl. fold (Pandas_groupby.groupby_sum cmp key df) in Hs, Hl.
  cbv zeta. split; [exact Hs|]. split; [now apply sorted_by_NoDup|].
  intros k t. rewrite (@lookup_In_by k t _ Hs), Hl. unfold expected_by.
  destruct (rows_with cmp key k df) as [|r0 rs] eqn:E.
  - split; [discriminate|]. intros [(r & Hr & Hk) _].
    assert (Hin : In r (rows_with cmp key k df)) by now apply rows_with_In.
    rewrite E in Hin. destruct Hin.
  - split.
    + intros [= <-]. split; [|reflexivity].
      exists r0. apply rows_with_In. rewrite E. now left.
    + intros [_ ->]. reflexivity.
Qed.

(** The keys of the grouped frame are built from the key column alone. *)
Lemma accumulate_insert_key k v g :
  map fst (Pandas_groupby.accumulate cmp k v g) = insert_key cmp k (map fst g).
Proof.
  induction g as [|[k' s] rest IH]; simpl; [reflexivity|].
  destruct (cmp k k'); simpl; [reflexivity | reflexivity | now rewrite IH].
Qed.

Lemma groupby_keys df :
  map fst (Pandas_groupby.groupby_sum cmp key df) = sorted_keys cmp (map key df).
Proof.
  unfold Pandas_groupby.groupby_sum, sorted_keys.
  change (@nil K) with (map fst (@nil (K * Z))).
  generalize (@nil (K * Z)) as g.
  induction df as [|r df IH]; intros g; simpl; [reflexivity|].
  rewrite IH, accumulate_insert_key. reflexivity.
Qed.

End OrderedGroups.

(* ================================================================= *)
(** * The orders of the three group keys *)

Lemma Z_compare_order : KeyOrder Z.compare.
Proof.
  constructor.
  - intros a b. apply Z.compare_eq.
  - apply Z.compare_refl.
  - intros a b c. rewrite !Z.compare_lt_iff. lia.
  - intros a b. rewrite Z.compare_gt_iff, Z.compare_lt_iff. lia.
Qed.

Lemma string_compare_refl s : String.compare s s = Eq.
Proof.
  induction s as [|a s IH]; simpl; [reflexivity|].
  unfold Ascii.compare. now rewrite N.compare_refl.
Qed.

Lemma string_compare_lt_trans a b c :
  String.compare a b = Lt -> String.compare b c = Lt -> String.compare a c = Lt.
Proof.
  revert b c. induction a as [|x a IH]; intros [|y b] [|z c]; simpl;
    try discriminate; auto.
  unfold Ascii.compare.
  destruct (N.compare_spec (N_of_ascii x) (N_of_ascii y)) as [E1|L1|G1];
    try discriminate;
    destruct (N.compare_spec (N_of_ascii y) (N_of_ascii z)) as [E2|L2|G2];
    try discriminate;
    destruct (N.compare_spec (N_of_ascii x) (N_of_ascii z)) as [E3|L3|G3];
    try lia; auto.
  apply IH.
Qed.

Lemma string_compare_order : KeyOrder String.compare.
Proof.
  constructor.
  - apply String.compare_eq_iff.
  - apply string_compare_refl.
  - apply string_compare_lt_trans.
  - intros a b H. rewrite String.compare_antisym, H. reflexivity.
Qed.

Lemma string_compare_eqb a b : is_Eq (String.compare a b) = String.eqb a b.
Proof.
  destruct (String.eqb_spec a b) as [->|Hne].
  - now rewrite string_compare_refl.
  - destruct (String.compare a b) eqn:E; try reflexivity.
    apply String.compare_eq_iff in E. contradiction.
Qed.

Lemma date_compare_lt_iff a b :
  date_compare a b = Lt <->
  dyear a < dyear b \/
  (dyear a = dyear b /\
   (dmonth a < dmonth b \/ (dmonth a = dmonth b /\ dday a < dday b))).
Proof.
  unfold date_compare.
  destruct (Z.compare_spec (dyear a) (dyear b));
    destruct (Z.compare_spec (dmonth a) (dmonth b));
    destruct (Z.compare_spec (dday a) (dday b));
    split; intros; try discriminate; try reflexivity; lia.
Qed.

Lemma date_compare_gt_iff a b :
  date_compare a b = Gt <-> date_compare b a = Lt.
Proof.
  rewrite date_compare_lt_iff. unfold date_compare.
  destruct (Z.compare_spec (dyear a) (dyear b));
    destruct (Z.compare_spec (dmonth a) (dmonth b));
    destruct (Z.compare_spec (dday a) (dday b));
    split; intros; try discriminate; try reflexivity; lia.
Qed.

Lemma date_compare_eq a b : date_compare a b = Eq -> a = b.
Proof.
  unfold date_compare. destruct a as [y m d], b as [y' m' d']; simpl.
  destruct (Z.compare_spec y y'); try discriminate.
  destruct (Z.compare_spec m m'); try discriminate.
  destruct (Z.compare_spec d d'); try discriminate.
  intros _. congruence.
Qed.

Lemma date_compare_refl a : date_compare a a = Eq.
Proof. unfold date_compare. now rewrite !Z.compare_refl. Qed.

Lemma date_compare_order : KeyOrder date_compare.
Proof.
  constructor.
  - apply date_compare_eq.
  - apply date_compare_refl.
  - intros a b c. rewrite !date_compare_lt_iff. lia.
  - intros a b. apply date_compare_gt_iff.
Qed.

Lemma date_category_compare_order : KeyOrder date_category_compare.
Proof.
  constructor.
  - intros [d1 c1] [d2 c2]. unfold date_category_compare. simpl.
    destruct (date_compare d1 d2) eqn:E; try discriminate. intros H.
    apply date_compare_eq in E. apply String.compare_eq_iff in H. congruence.
  - intros [d c]. unfold date_category_compare. simpl.
    rewrite date_compare_refl. apply string_compare_refl.
  - intros [d1 c1] [d2 c2] [d3 c3]. unfold date_category_compare. simpl.
    destruct (date_compare d1 d2) eqn:E1; try discriminate;
      destruct (date_compare d2 d3) eqn:E2; try discriminate; intros H1 H2.
    + apply date_compare_eq in E1, E2. subst.
      rewrite date_compare_refl. eapply string_compare_lt_trans; eauto.
    + apply date_compare_eq in E1. subst. now rewrite E2.
    + apply date_compare_eq in E2. subst. now rewrite E1.
    + now rewrite (@cmp_lt_trans _ _ date_compare_order _ _ _ E1 E2).
  - intros [d1 c1] [d2 c2]. unfold date_category_compare. simpl.
    destruct (date_compare d1 d2) eqn:E; try discriminate; intros H.
    + apply date_compare_eq in E. subst. rewrite date_compare_refl.
      now apply (@cmp_gt_lt _ _ string_compare_order).
    + apply date_compare_gt_iff in E. now rewrite E.
Qed.

(** X9. The market-share table has one row for each manufacturer that
    occurs in the frame, in ascending order of name, carrying the int64 sum
    of that manufacturer's registrations. *)
Theorem manu_share_table (df : DataFrame) :
  StronglySorted (key_lt String.compare) (map fst (manu_share df))
  /\ NoDup (map fst (manu_share df))
  /\ forall m t,
       In (m, t) (manu_share df) <->
       (exists r, In r df /\ manufacturer r = m)
       /\ t = Int64.sum (map registrations
                           (filter (fun r => String.eqb (manufacturer r) m) df)).
Proof.
  destruct (@groupby_table _ _ string_compare_order manufacturer df)
    as (Hs & Hn & Ht).
  split; [exact Hs|]. split; [exact Hn|].
  intros m t. unfold manu_share. rewrite Ht. unfold rows_with.
  rewrite (filter_ext _ (fun r => String.eqb (manufacturer r) m));
    [reflexivity|].
  intros r. apply string_compare_eqb.
Qed.

(** X10. The monthly-trend table has one row for each (date, category)
    pair that occurs in the frame, ordered by date and then by category,
    carrying the int64 sum of the registrations of the rows with that
    pair. *)
Theorem monthly_table (df : DataFrame) :
  StronglySorted (key_lt date_category_compare) (map fst (monthly df))
  /\ (forall a b,
        key_lt date_category_compare a b <->
        date_lt (fst a) (fst b)
        \/ (fst a = fst b /\ key_lt String.compare (snd a) (snd b)))
  /\ NoDup (map fst (monthly df))
  /\ (forall d c t,
        In ((d, c), t) (monthly df) <->
        (exists r, In r df /\ date r = d /\ category r = c)
        /\ t = Int64.sum (map registrations
               (rows_with date_category_compare
                  (fun r => (date r, category r)) (d, c) df)))
  /\ (forall d c r,
        In r (rows_with date_category_compare
                (fun r => (date r, category r)) (d, c) df)
        <-> In r df /\ date r = d /\ category r = c).
Proof.
  destruct (@groupby_table _ _ date_category_compare_order
              (fun r => (date r, category r)) df) as (Hs & Hn & Ht).
  split; [exact Hs|]. split.
  { intros [d1 c1] [d2 c2]. unfold key_lt, date_category_compare, date_lt. simpl.
    destruct (date_compare d1 d2) eqn:E.
    - apply date_compare_eq in E. subst. split; [auto|].
      intros [H|[_ H]]; [discriminate | exact H].
    - split; auto.
    - split; [discriminate|]. intros [H|[H _]]; [discriminate|].
      subst. rewrite date_compare_refl in E. discriminate. }
  split; [exact Hn|]. split.
  - intros d c t. unfold monthly. rewrite Ht. split.
    + intros [(r & Hr & [= <- <-]) ->]. split; [eauto | reflexivity].
    + intros [(r & Hr & <- & <-) ->]. split; [eauto | reflexivity].
  - intros d c r.
    rewrite (@rows_with_In _ _ date_category_compare_order). split.
    + intros [Hr [= <- <-]]. auto.
    + intros (Hr & <- & <-). auto.
Qed.

(* ================================================================= *)
(** * The calendar *)

Lemma StronglySorted_filter {A} (R : A -> A -> Prop) (f : A -> bool) (l : list A) :
  StronglySorted R l -> StronglySorted R (filter f l).
Proof.
  induction 1 as [|a l Hl IH Hall]; simpl; [constructor|].
  destruct (f a); [|assumption].
  constructor; [assumption | now apply Forall_filter].
Qed.

Lemma month_ends_from_spec n y m :
  1 <= m <= 12 ->
  Forall (fun d => is_month_end d /\ (y < dyear d \/ (dyear d = y /\ m <= dmonth d)))
         (month_ends_from n y m)
  /\ StronglySorted date_lt (month_ends_from n y m).
Proof.
  revert y m. induction n as [|n IH]; intros y m Hm; simpl.
  - split; constructor.
  - set (tail := if m =? 12 then month_ends_from n (y + 1) 1
                 else month_ends_from n y (m + 1)).
    assert (Htail :
      Forall (fun d => is_month_end d /\ (y < dyear d \/ (dyear d = y /\ m < dmonth d)))
             tail
      /\ StronglySorted date_lt tail).
    { subst tail. destruct (Z.eqb_spec m 12) as [->|Hne].
      - destruct (IH (y + 1) 1) as [H1 H2]; [lia|]. split; [|exact H2].
        eapply Forall_impl; [|exact H1]. simpl. intros d [Hd Hy]. split; [exact Hd|lia].
      - destruct (IH y (m + 1)) as [H1 H2]; [lia|]. split; [|exact H2].
        eapply Forall_impl; [|exact H1]. simpl. intros d [Hd Hy]. split; [exact Hd|lia]. }
    destruct Htail as [H1 H2]. split.
    + constructor.
      * unfold is_month_end, month_end. simpl. split; [split; [exact Hm | reflexivity]|].
        right. lia.
      * eapply Forall_impl; [|exact H1]. simpl. intros d [Hd Hy]. split; [exact Hd|lia].
    + constructor; [exact H2|].
      eapply Forall_impl; [|exact H1]. simpl. intros d [Hd Hy].
      unfold date_lt. apply date_compare_lt_iff. unfold month_end. simpl. lia.
Qed.

(** X11. For a start date with a valid month, [date_range] with monthly
    frequency yields month-end dates only, each within the closed range,
    in strictly ascending order. *)
Theorem date_range_M_spec (start stop : Date) :
  1 <= dmonth start <= 12 ->
  StronglySorted date_lt (date_range_M start stop)
  /\ Forall (fun d => is_month_end d /\ date_le start d /\ date_le d stop)
            (date_range_M start stop).
Proof.
  intros Hm. unfold date_range_M.
  set (n := Z.to_nat ((dyear stop - dyear start) * 12 + dmonth stop - dmonth start + 1)).
  destruct (month_ends_from_spec n (dyear start) Hm) as [H1 H2]. split.
  - now apply StronglySorted_filter.
  - apply Forall_forall. intros d Hd. apply filter_In in Hd.
    destruct Hd as [Hd Hb]. apply andb_true_iff in Hb.
    rewrite !date_leb_iff in Hb. rewrite Forall_forall in H1.
    destruct (H1 d Hd) as [He _]. tauto.
Qed.

Lemma date_range_M_spec_witness :
  StronglySorted date_lt dates
  /\ Forall (fun d => is_month_end d
                      /\ date_le (mkDate 2019 1 1) d /\ date_le d (mkDate 2023 12 31))
            dates.
Proof. apply date_range_M_spec. simpl. lia. Defined.

(* ================================================================= *)
(** * More on the generator *)

Section GeneratorShape.
Context {np : NumPy}.

(** If every iteration appends [f x] to a view of the accumulator, the
    loop appends them all, in order. *)
Lemma for_each_extend {A S T} (view : S -> list T) (f : A -> list T)
    (xs : list A) (body : A -> S -> Gen.M S) :
  (forall x s g s' g', In x xs -> body x s g = Some (s', g') ->
                       view s' = view s ++ f x) ->
  forall s g s' g', Gen.for_each xs body s g = Some (s', g') ->
                    view s' = view s ++ flat_map f xs.
Proof.
  induction xs as [|x xs IH]; intros Hbody s g s' g'; simpl.
  - unfold Gen.ret. intros [= <- _]. now rewrite app_nil_r.
  - unfold Gen.bind. destruct (body x s g) as [[s1 g1]|] eqn:E; [|discriminate].
    intros H. apply IH in H.
    + rewrite H, (Hbody x s g s1 g1 (or_introl eq_refl) E), <- app_assoc.
      reflexivity.
    + intros y t h t' h' Hy. apply Hbody. now right.
Qed.

(** A loop fails only where its body fails. *)
Lemma for_each_none {A S} (xs : list A) (body : A -> S -> Gen.M S) s g :
  Gen.for_each xs body s g = None ->
  exists x s0 g0, In x xs /\ body x s0 g0 = None.
Proof.
  revert s g. induction xs as [|x xs IH]; intros s g; simpl.
  - unfold Gen.ret. discriminate.
  - unfold Gen.bind. destruct (body x s g) as [[s1 g1]|] eqn:E.
    + intros H. destruct (IH _ _ H) as (y & s0 & g0 & Hy & Hb).
      exists y, s0, g0. split; [now right | exact Hb].
    + intros _. exists x, s, g. split; [now left | exact E].
Qed.

Lemma generate_keys ds cats table g df g' :
  generate ds cats table g = Some (df, g') ->
  map row_key df = combinations ds cats table.
Proof.
  unfold generate, combinations.
  change (map row_key df) with ((fun data => map row_key data) df).
  intros H.
  apply (for_each_extend (fun data => map row_key data)
           (fun d => flat_map (fun cat =>
              map (fun manu => (d, cat, manu)) (dict_get table cat [])) cats))
    in H; [exact H|].
  intros d data g1 data1 g1' _.
  apply (for_each_extend (fun data => map row_key data)
           (fun cat => map (fun manu => (d, cat, manu)) (dict_get table cat []))).
  intros cat data2 g2 data2' g2' _. intros H2.
  apply (for_each_extend (fun data => map row_key data)
           (fun manu => [(d, cat, manu)])) in H2.
  - rewrite H2. f_equal.
  - intros manu data3 g3 data3' g3' _. unfold Gen.bind, Gen.ret.
    destruct (mock_row d cat manu g3) as [[row g4]|] eqn:E; [|discriminate].
    intros [= <- _]. rewrite map_app. f_equal. simpl.
    apply mock_row_inv in E. destruct E as (regs & _ & ->). reflexivity.
Qed.

(** X12. A successful run of the generator yields exactly one row for
    each (date, category, manufacturer of that category), in loop order;
    the mock data has 900 rows. *)
Theorem generate_enumerates :
  (forall ds cats table g df g',
      generate ds cats table g = Some (df, g') ->
      map row_key df = combinations ds cats table)
  /\ (forall g df g',
        load_data None g = Some (df, g') ->
        map row_key df = combinations dates categories manufacturers
        /\ List.length df = 900%nat).
Proof.
  split; [apply generate_keys|].
  intros g df g' H. apply generate_keys in H. split; [exact H|].
  rewrite <- (length_map row_key), H. vm_compute. reflexivity.
Qed.

Lemma py_int_none_iff x : F64.py_int x = None <-> F64.is_finite x = false.
Proof. destruct x; simpl; split; intros; congruence. Qed.

Lemma mock_row_none d cat manu g :
  mock_row d cat manu g = None <->
  F64.is_finite
    (scaled (fst (randint 1000 5000 g)) d
       (fst (normal (F64.of_int 0) (F64.lit 1 10) (snd (randint 1000 5000 g)))))
  = false.
Proof.
  rewrite <- py_int_none_iff.
  unfold mock_row, Gen.bind, Gen.draw, Gen.lift, Gen.ret.
  destruct (randint 1000 5000 g) as [base g1]; cbn [fst snd].
  destruct (normal (F64.of_int 0) (F64.lit 1 10) g1) as [noise g2]; cbn [fst snd].
  destruct (F64.py_int (scaled base d noise)); split; congruence.
Qed.

(** X13. The loops of the generator either complete, with one row for
    each of the 900 combinations, or stop at a row of some date whose
    scaled product is NaN or infinite, where [int] raises; nothing else
    stops them. *)
Theorem generate_failure (g : rng) :
  (exists df g', mock_data g = Some (df, g') /\ List.length df = 900%nat)
  \/ (mock_data g = None
      /\ exists d g0,
           In d dates
           /\ F64.is_finite
                (scaled (fst (randint 1000 5000 g0)) d
                   (fst (normal (F64.of_int 0) (F64.lit 1 10)
                           (snd (randint 1000 5000 g0)))))
              = false).
Proof.
  destruct (mock_data g) as [[df g']|] eqn:E.
  - left. exists df, g'. split; [reflexivity|].
    unfold mock_data in E. apply generate_keys in E.
    rewrite <- (length_map row_key), E. vm_compute. reflexivity.
  - right. split; [reflexivity|]. unfold mock_data, generate in E.
    apply for_each_none in E. destruct E as (d & s1 & g1 & Hd & H).
    apply for_each_none in H. destruct H as (cat & s2 & g2 & _ & H).
    apply for_each_none in H. destruct H as (manu & s3 & g3 & _ & H).
    unfold Gen.bind, Gen.ret in H.
    destruct (mock_row d cat manu g3) as [[row g4]|] eqn:E; [discriminate|].
    exists d, g3. split; [exact Hd | now apply mock_row_none in E].
Qed.

(** X14. In every row of the mock data the date is a month end between
    January 2019 and December 2023, [year] and [month] are the date's, and
    [quarter] is ["Q"] followed by [(month - 1) // 3 + 1], one of Q1 to
    Q4. *)
Theorem mock_derived_columns g df g' :
  load_data None g = Some (df, g') ->
  Forall (fun r =>
    is_month_end (date r)
    /\ date_le (mkDate 2019 1 31) (date r) /\ date_le (date r) (mkDate 2023 12 31)
    /\ year r = dyear (date r)
    /\ month r = dmonth (date r)
    /\ quarter r = ("Q" ++ str ((month r - 1) / 3 + 1))%string
    /\ In (quarter r) ["Q1"; "Q2"; "Q3"; "Q4"]%string) df.
Proof.
  assert (Hdates : forallb (fun d =>
            (1 <=? dmonth d) && (dmonth d <=? 12)
            && (dday d =? days_in_month (dyear d) (dmonth d))
            && date_leb (mkDate 2019 1 31) d && date_leb d (mkDate 2023 12 31)
            && Pandas.mem ("Q" ++ str ((dmonth d - 1) / 3 + 1))%string
                          ["Q1"; "Q2"; "Q3"; "Q4"]%string) dates = true)
    by (vm_compute; reflexivity).
  rewrite forallb_forall in Hdates.
  unfold load_data, mock_data. apply generate_rows.
  intros d cat manu g0 row g0' Hd _ _ H.
  apply mock_row_inv in H. destruct H as (regs & _ & ->). simpl.
  specialize (Hdates d Hd).
  rewrite !andb_true_iff, !Z.leb_le, Z.eqb_eq, !date_leb_iff, mem_In in Hdates.
  unfold is_month_end. tauto.
Qed.

End GeneratorShape.

Lemma generate_enumerates_witness :
  exists df g',
    @load_data replay None demo_draws = Some (df, g')
    /\ List.length df = 900%nat.
Proof.
  destruct (@load_data replay None demo_draws) as [[df g']|] eqn:E.
  - exists df, g'. split; [reflexivity|].
    exact (proj2 (proj2 (@generate_enumerates replay) demo_draws df g' E)).
  - vm_compute in E. discriminate.
Defined.

Lemma mock_derived_columns_witness :
  exists df g',
    @load_data replay None demo_draws = Some (df, g')
    /\ Forall (fun r => quarter r = ("Q" ++ str ((month r - 1) / 3 + 1))%string) df.
Proof.
  destruct (@load_data replay None demo_draws) as [[df g']|] eqn:E.
  - exists df, g'. split; [reflexivity|].
    eapply Forall_impl; [|exact (@mock_derived_columns replay demo_draws df g' E)].
    simpl. tauto.
  - vm_compute in E. discriminate.
Defined.

(* ================================================================= *)
(** * The dashboard on the mock data *)

Section MockDashboard.
Context {np : NumPy}.

Lemma mock_rows_year g df g' :
  load_data None g = Some (df, g') ->
  Forall (fun r => year r = dyear (date r)) df.
Proof.
  unfold load_data, mock_data. apply generate_rows.
  intros d cat manu g0 row g0' _ _ _ H.
  apply mock_row_inv in H. destruct H as (regs & _ & ->). reflexivity.
Qed.

Lemma map_Forall_ext {A B} (f h : A -> B) (l : list A) :
  Forall (fun x => f x = h x) l -> map f l = map h l.
Proof. induction 1; simpl; congruence. Qed.

(** X15. Whatever the random draws, the mock data offers the categories
    2W, 3W, 4W and the twelve manufacturers in order of first appearance,
    spans 2019-01-31 to 2023-12-31, and gives a growth table for the years
    2019 to 2023, a market-share table of the twelve manufacturers in
    ascending order of name, and a monthly trend of 180 groups; the latest
    month shown is December 2023. *)
Theorem mock_dashboard_keys g df g' :
  load_data None g = Some (df, g') ->
  default_categories df = ["2W"; "3W"; "4W"]%string
  /\ default_manufacturers df
     = ["Hero"; "Honda"; "Bajaj"; "TVS"; "Royal Enfield"; "Mahindra"; "Piaggio";
        "Maruti"; "Hyundai"; "Tata"; "Kia"; "Toyota"]%string
  /\ default_date_range df = Some (mkDate 2019 1 31, mkDate 2023 12 31)
  /\ map yoy_year (yoy_df df) = [2019; 2020; 2021; 2022; 2023]
  /\ map fst (manu_share df)
     = ["Bajaj"; "Hero"; "Honda"; "Hyundai"; "Kia"; "Mahindra"; "Maruti";
        "Piaggio"; "Royal Enfield"; "TVS"; "Tata"; "Toyota"]%string
  /\ List.length (monthly df) = 180%nat
  /\ latest_month df = Some "December 2023"%string.
Proof.
  intros H. pose proof (mock_rows_year _ H) as Hyear.
  unfold load_data, mock_data in H. apply generate_keys in H.
  assert (Hdate : map date df = map (fun k => fst (fst k))
                                    (combinations dates categories manufacturers))
    by (rewrite <- H, map_map; reflexivity).
  assert (Hcat : map category df = map (fun k => snd (fst k))
                                       (combinations dates categories manufacturers))
    by (rewrite <- H, map_map; reflexivity).
  assert (Hmanu : map manufacturer df = map snd
                                       (combinations dates categories manufacturers))
    by (rewrite <- H, map_map; reflexivity).
  split; [|split; [|split; [|split; [|split; [|split]]]]].
  - unfold default_categories, Pandas.column. rewrite Hcat.
    vm_compute. reflexivity.
  - unfold default_manufacturers, Pandas.column. rewrite Hmanu.
    vm_compute. reflexivity.
  - unfold default_date_range, Pandas.column. rewrite Hdate.
    vm_compute. reflexivity.
  - rewrite yoy_df_spec, spec_yoy_years. unfold yoy_totals.
    rewrite groupby_keys, (map_Forall_ext _ _ Hyear).
    rewrite <- (map_map date dyear), Hdate. vm_compute. reflexivity.
  - unfold manu_share. rewrite groupby_keys, Hmanu. vm_compute. reflexivity.
  - rewrite <- (length_map fst). unfold monthly. rewrite groupby_keys.
    replace (map (fun r => (date r, category r)) df)
      with (map fst (map row_key df)) by (rewrite map_map; reflexivity).
    rewrite H. vm_compute. reflexivity.
  - unfold latest_month, latest_date, Pandas.column. rewrite Hdate.
    vm_compute. reflexivity.
Qed.

End MockDashboard.

Lemma mock_dashboard_keys_witness :
  exists df g',
    @load_data replay None demo_draws = Some (df, g')
    /\ map yoy_year (yoy_df df) = [2019; 2020; 2021; 2022; 2023]
    /\ List.length (monthly df) = 180%nat.
Proof.
  destruct (@load_data replay None demo_draws) as [[df g']|] eqn:E.
  - exists df, g'. split; [reflexivity|].
    pose proof (@mock_dashboard_keys replay demo_draws df g' E) as H.
    tauto.
  - vm_compute in E. discriminate.
Defined.

(* ================================================================= *)
(** * The display of the total *)

Lemma group3_step a b c d rest :
  group3 (a :: b :: c :: d :: rest)
  = a :: b :: c :: ","%char :: group3 (d :: rest).
Proof. reflexivity. Qed.

Lemma group3_short l : (List.length l <= 3)%nat -> group3 l = l.
Proof.
  destruct l as [|a [|b [|c [|d rest]]]]; simpl; intros; try reflexivity; lia.
Qed.

Lemma group3_strip_fuel n l :
  (List.length l <= n)%nat ->
  Forall (fun c => is_digit c = true) l ->
  filter (fun c => negb (Ascii.eqb c ","%char)) (group3 l) = l.
Proof.
  revert l. induction n as [|n IH]; intros l Hn Hd.
  - destruct l; [reflexivity | simpl in Hn; lia].
  - destruct l as [|a [|b [|c [|d rest]]]].
    + reflexivity.
    + inversion Hd as [|? ? Ha _]; subst. simpl.
      destruct a as [[] [] [] [] [] [] [] []]; try discriminate Ha; reflexivity.
    + inversion Hd as [|? ? Ha Hd1]; subst. inversion Hd1 as [|? ? Hb _]; subst.
      simpl.
      destruct a as [[] [] [] [] [] [] [] []]; try discriminate Ha;
        destruct b as [[] [] [] [] [] [] [] []]; try discriminate Hb; reflexivity.
    + inversion Hd as [|? ? Ha Hd1]; subst. inversion Hd1 as [|? ? Hb Hd2]; subst.
      inversion Hd2 as [|? ? Hc _]; subst. simpl.
      destruct a as [[] [] [] [] [] [] [] []]; try discriminate Ha;
        destruct b as [[] [] [] [] [] [] [] []]; try discriminate Hb;
        destruct c as [[] [] [] [] [] [] [] []]; try discriminate Hc; reflexivity.
    + inversion Hd as [|? ? Ha Hd1]; subst. inversion Hd1 as [|? ? Hb Hd2]; subst.
      inversion Hd2 as [|? ? Hc Hd3]; subst.
      rewrite group3_step.
      assert (Hnc : forall x, is_digit x = true ->
                              negb (Ascii.eqb x ","%char) = true).
      { intros x Hx.
        destruct x as [[] [] [] [] [] [] [] []]; try discriminate Hx; reflexivity. }
      cbn [filter]. rewrite (Hnc a Ha), (Hnc b Hb), (Hnc c Hc).
      change (negb (Ascii.eqb ","%char ","%char)) with false. cbv iota.
      rewrite IH; [reflexivity | simpl in *; lia | exact Hd3].
Qed.

Lemma uint_digits d :
  Forall (fun c => is_digit c = true)
         (list_ascii_of_string (NilEmpty.string_of_uint d)).
Proof. induction d; simpl; constructor; auto. Qed.

Lemma str_digits z :
  0 <= z -> Forall (fun c => is_digit c = true) (list_ascii_of_string (str z)).
Proof.
  intros Hz. unfold str. destruct z as [|p|p]; [| |lia].
  - repeat constructor.
  - unfold Z.to_int, NilZero.string_of_int, NilZero.string_of_uint.
    destruct (Pos.to_uint p); try apply uint_digits. repeat constructor.
Qed.

Lemma str_neg p : str (Z.neg p) = String "-" (str (Z.pos p)).
Proof. reflexivity. Qed.

Lemma format_body_strip z :
  0 <= z ->
  filter (fun c => negb (Ascii.eqb c ","%char))
    (rev (group3 (rev (list_ascii_of_string (str z)))))
  = list_ascii_of_string (str z).
Proof.
  intros Hz. rewrite filter_rev.
  rewrite (@group3_strip_fuel (List.length (rev (list_ascii_of_string (str z))))).
  - apply rev_involutive.
  - lia.
  - apply Forall_rev. now apply str_digits.
Qed.

Lemma format_thousands_facts (n : Z) :
  strip_commas (format_thousands n) = str n
  /\ (-1000 < n < 1000 -> format_thousands n = str n).
Proof.
  split.
  - unfold strip_commas, format_thousands.
    destruct n as [|p|p].
    + reflexivity.
    + change (Z.pos p <? 0) with false. cbv iota zeta.
      rewrite list_ascii_of_string_of_list_ascii.
      change (Z.abs (Z.pos p)) with (Z.pos p).
      rewrite format_body_strip by lia. apply string_of_list_ascii_of_string.
    + change (Z.neg p <? 0) with true. cbv iota zeta.
      change (Z.abs (Z.neg p)) with (Z.pos p).
      cbn [list_ascii_of_string filter].
      change (negb (Ascii.eqb "-"%char ","%char)) with true. cbv iota.
      rewrite list_ascii_of_string_of_list_ascii.
      rewrite format_body_strip by lia.
      cbn [string_of_list_ascii]. rewrite string_of_list_ascii_of_string.
      symmetry. apply str_neg.
  - intros Hn. unfold format_thousands.
    assert (Hlen : (List.length (list_ascii_of_string (str (Z.abs n))) <= 3)%nat).
    { assert (Ha : 0 <= Z.abs n < 1000) by lia.
      revert Ha. generalize (Z.abs n). intros z Hz.
      assert (Hin : In z (map Z.of_nat (seq 0 1000))).
      { apply in_map_iff. exists (Z.to_nat z). split; [lia|].
        apply in_seq. lia. }
      assert (Hall : forallb (fun z =>
                (List.length (list_ascii_of_string (str z)) <=? 3)%nat)
                (map Z.of_nat (seq 0 1000)) = true) by (vm_compute; reflexivity).
      rewrite forallb_forall in Hall. apply Nat.leb_le. now apply Hall. }
    rewrite group3_short by (rewrite length_rev; exact Hlen).
    rewrite rev_involutive, string_of_list_ascii_of_string.
    destruct n as [|p|p]; try reflexivity.
Qed.

(** X16. The total is displayed as its decimal digits with commas
    inserted: removing the commas gives back the integer's decimal string,
    and an integer of at most three digits is displayed without any. *)
Theorem format_thousands_strip :
  (forall n, strip_commas (format_thousands n) = str n)
  /\ (forall n, -1000 < n < 1000 -> format_thousands n = str n)
  /\ (forall df, strip_commas (total_reg_text df) = str (total_reg df)).
Proof.
  split; [intros n; apply format_thousands_facts|].
  split; [intros n; apply format_thousands_facts|].
  intros df. apply format_thousands_facts.
Qed.

Lemma format_thousands_strip_witness : format_thousands (-999) = str (-999).
Proof. apply (proj1 (proj2 format_thousands_strip) (-999)). lia. Defined.

(* ================================================================= *)
(** * The charts of a filtered frame *)

(** X17. The charts respect the selection: the market-share table of a
    filtered frame lists selected manufacturers only, and its monthly
    trend has only dates within the selected range and selected
    categories. *)
Theorem charts_respect_selection (df : DataFrame) (dr : Date * Date)
    (cats mans : list string) :
  (forall m t, In (m, t) (manu_share (filtered_df df dr cats mans)) -> In m mans)
  /\ (forall d c t,
        In ((d, c), t) (monthly (filtered_df df dr cats mans)) ->
        date_le (fst dr) d /\ date_le d (snd dr) /\ In c cats).
Proof.
  split.
  - intros m t H.
    apply (@groupby_table _ _ string_compare_order manufacturer) in H.
    destruct H as [(r & Hr & <-) _].
    rewrite filtered_df_filter in Hr. apply filter_In in Hr.
    destruct Hr as [_ Hk]. apply keeps_iff in Hk. tauto.
  - intros d c t H.
    apply (@groupby_table _ _ date_category_compare_order
             (fun r => (date r, category r))) in H.
    destruct H as [(r & Hr & [= <- <-]) _].
    rewrite filtered_df_filter in Hr. apply filter_In in Hr.
    destruct Hr as [_ Hk]. apply keeps_iff in Hk. tauto.
Qed.

(* ================================================================= *)
(** * Frames with missing cells: timestamps and series *)

Lemma ts_leb_iff a b : Raw.ts_leb a b = true <-> ts_le a b.
Proof.
  unfold Raw.ts_leb, ts_le. destruct (Raw.ts_compare a b); split;
    intros; try discriminate; try reflexivity; congruence.
Qed.

Lemma ts_le_spec a b :
  ts_le a b <->
  date_compare (Raw.ts_date a) (Raw.ts_date b) = Lt
  \/ (Raw.ts_date a = Raw.ts_date b /\ (Raw.ts_time a <= Raw.ts_time b)%N).
Proof.
  unfold ts_le, Raw.ts_compare.
  destruct (date_compare (Raw.ts_date a) (Raw.ts_date b)) eqn:E.
  - apply date_compare_eq in E. split.
    + intros H. right. split; [exact E | now apply N.compare_le_iff].
    + intros [H|[_ H]]; [discriminate | now apply N.compare_le_iff].
  - split; [auto | discriminate].
  - split; [congruence|]. intros [H|[H _]]; [discriminate|].
    rewrite H, date_compare_refl in E. discriminate.
Qed.

Lemma ts_le_refl a : ts_le a a.
Proof. apply ts_le_spec. right. split; [reflexivity | lia]. Qed.

Lemma ts_le_trans a b c : ts_le a b -> ts_le b c -> ts_le a c.
Proof.
  rewrite !ts_le_spec.
  intros [H1|[E1 H1]] [H2|[E2 H2]].
  - left. exact (@cmp_lt_trans _ _ date_compare_order _ _ _ H1 H2).
  - left. now rewrite <- E2.
  - left. now rewrite E1.
  - right. split; [congruence | lia].
Qed.

Lemma ts_le_total a b : ts_le a b \/ ts_le b a.
Proof.
  rewrite !ts_le_spec.
  destruct (date_compare (Raw.ts_date a) (Raw.ts_date b)) eqn:E.
  - apply date_compare_eq in E.
    destruct (N.le_ge_cases (Raw.ts_time a) (Raw.ts_time b)); [left | right];
      right; split; auto.
  - auto.
  - apply date_compare_gt_iff in E. auto.
Qed.

Lemma ts_le_midnight t : ts_le (Raw.midnight (Raw.ts_date t)) t.
Proof. apply ts_le_spec. right. simpl. split; [reflexivity | lia]. Qed.

Lemma ts_max2_spec a b :
  ts_le a (Raw.ts_max2 a b) /\ ts_le b (Raw.ts_max2 a b)
  /\ (Raw.ts_max2 a b = a \/ Raw.ts_max2 a b = b).
Proof.
  unfold Raw.ts_max2. destruct (Raw.ts_leb a b) eqn:E.
  - apply ts_leb_iff in E. split; [exact E|]. split; [apply ts_le_refl | now right].
  - split; [apply ts_le_refl|]. split; [|now left].
    destruct (ts_le_total a b) as [H|H]; [|exact H].
    apply ts_leb_iff in H. congruence.
Qed.

Lemma ts_min2_spec a b :
  ts_le (Raw.ts_min2 a b) a /\ ts_le (Raw.ts_min2 a b) b
  /\ (Raw.ts_min2 a b = a \/ Raw.ts_min2 a b = b).
Proof.
  unfold Raw.ts_min2. destruct (Raw.ts_leb a b) eqn:E.
  - apply ts_leb_iff in E. split; [apply ts_le_refl|]. split; [exact E | now left].
  - split; [|split; [apply ts_le_refl | now right]].
    destruct (ts_le_total a b) as [H|H]; [|exact H].
    apply ts_leb_iff in H. congruence.
Qed.

(** A reduction that skips missing values returns a value of the series,
    related to every value of the series as each step relates its result
    to its arguments; it is missing only when every cell is. *)
Lemma skipna_spec (R : Raw.Timestamp -> Raw.Timestamp -> Prop) pick :
  (forall a, R a a) ->
  (forall a b c, R a b -> R b c -> R a c) ->
  (forall a b, R a (pick a b) /\ R b (pick a b)
               /\ (pick a b = a \/ pick a b = b)) ->
  forall s acc,
    let res := fold_left (fun acc v =>
                   match v, acc with
                   | Some t, Some a => Some (pick a t)
                   | Some t, None => Some t
                   | None, _ => acc
                   end) s acc in
    match res with
    | Some m =>
        (acc = Some m \/ In (Some m) s)
        /\ (forall a, acc = Some a -> R a m)
        /\ (forall t, In (Some t) s -> R t m)
    | None => acc = None /\ forall v, In v s -> v = None
    end.
Proof.
  intros Hrefl Htrans Hpick.
  induction s as [|v s IH]; intros acc; simpl.
  - destruct acc as [a|].
    + split; [now left|]. split; [intros b [= ->]; apply Hrefl | intros t []].
    + split; [reflexivity | intros v []].
  - set (acc' := match v, acc with
                 | Some t, Some a => Some (pick a t)
                 | Some t, None => Some t
                 | None, _ => acc
                 end).
    specialize (IH acc'). cbv zeta in IH.
    destruct (fold_left _ s acc') as [m|].
    + destruct IH as (Hm & Hacc & Hs).
      destruct v as [t|]; [destruct acc as [a|]|]; subst acc'.
      * destruct (Hpick a t) as (Ha & Ht & Hp).
        split; [|split].
        -- destruct Hm as [[= Hm]|Hm]; [|now right; right].
           destruct Hp as [Hp|Hp]; rewrite Hp in Hm; subst;
             [now left | right; now left].
        -- intros b [= ->]. eapply Htrans; [exact Ha | now apply Hacc].
        -- intros u [[= ->]|Hu]; [|now apply Hs].
           eapply Htrans; [exact Ht | now apply Hacc].
      * split; [|split].
        -- destruct Hm as [[= ->]|Hm]; right; [now left | now right].
        -- intros b Hb. discriminate.
        -- intros u [[= ->]|Hu]; [now apply Hacc | now apply Hs].
      * split; [|split].
        -- destruct Hm as [Hm|Hm]; [now left | right; now right].
        -- exact Hacc.
        -- intros u [Hu|Hu]; [discriminate | now apply Hs].
    + destruct IH as (Hacc & Hs).
      destruct v as [t|]; [destruct acc as [a|]|]; subst acc'; try discriminate.
      split; [exact Hacc|]. intros v [<-|Hv]; [reflexivity | now apply Hs].
Qed.

Lemma series_max_spec s :
  match Raw.series_max s with
  | Some hi => In (Some hi) s /\ forall t, In (Some t) s -> ts_le t hi
  | None => forall v, In v s -> v = None
  end.
Proof.
  pose proof (@skipna_spec ts_le Raw.ts_max2 ts_le_refl ts_le_trans ts_max2_spec
                s None) as H.
  cbv zeta in H. unfold Raw.series_max, Raw.skipna.
  destruct (fold_left _ s None) as [m|].
  - destruct H as ([H|H] & _ & Hs); [discriminate|]. auto.
  - tauto.
Qed.

Lemma series_min_spec s :
  match Raw.series_min s with
  | Some lo => In (Some lo) s /\ forall t, In (Some t) s -> ts_le lo t
  | None => forall v, In v s -> v = None
  end.
Proof.
  pose proof (@skipna_spec (fun a b => ts_le b a) Raw.ts_min2 ts_le_refl
                (fun a b c H1 H2 => ts_le_trans H2 H1) ts_min2_spec s None) as H.
  cbv zeta in H. unfold Raw.series_min, Raw.skipna.
  destruct (fold_left _ s None) as [m|].
  - destruct H as ([H|H] & _ & Hs); [discriminate|]. auto.
  - tauto.
Qed.

Lemma cell_eqb_eq a b : Raw.cell_eqb a b = true <-> a = b.
Proof.
  destruct a as [x|], b as [y|]; simpl; try (split; [discriminate | congruence]).
  - rewrite String.eqb_eq. split; congruence.
  - tauto.
Qed.

Lemma raw_mem_In v values : Raw.mem v values = true <-> In v values.
Proof.
  unfold Raw.mem. rewrite existsb_exists. split.
  - intros (x & Hx & E). apply cell_eqb_eq in E. now subst.
  - intros H. exists v. split; [assumption | now apply cell_eqb_eq].
Qed.

Lemma raw_unique_In s v : In v (Raw.unique s) <-> In v s.
Proof.
  unfold Raw.unique.
  assert (H : forall seen,
    In v (fold_left (fun seen v => if Raw.mem v seen then seen else seen ++ [v])
                    s seen)
    <-> In v seen \/ In v s).
  { induction s as [|x s IH]; intros seen; simpl; [tauto|].
    rewrite IH. destruct (Raw.mem x seen) eqn:E.
    - apply raw_mem_In in E. split; [tauto|]. intros [H|[<-|H]]; auto.
    - rewrite in_app_iff. simpl. tauto. }
  rewrite H. simpl. tauto.
Qed.

Lemma raw_filtered_filter df dr cats mans :
  Raw.filtered_df df dr cats mans = filter (raw_keeps dr cats mans) df.
Proof.
  unfold Raw.filtered_df, Raw.filter_mask, Raw.cmp_scalar, Raw.isin.
  rewrite !map_map, !and_series_map, bool_index_map.
  apply filter_ext. intros r. unfold raw_keeps.
  destruct (Raw.date r); reflexivity.
Qed.

Lemma raw_keeps_iff dr cats mans r :
  raw_keeps dr cats mans r = true <->
  (exists t, Raw.date r = Some t
             /\ ts_le (Raw.midnight (fst dr)) t /\ ts_le t (Raw.midnight (snd dr)))
  /\ In (Raw.category r) cats /\ In (Raw.manufacturer r) mans.
Proof.
  unfold raw_keeps. rewrite !andb_true_iff, !raw_mem_In.
  destruct (Raw.date r) as [t|].
  - rewrite andb_true_iff, !ts_leb_iff. split.
    + intros [[H1 H2] H3]. split; [exists t|]; tauto.
    + intros [(u & [= <-] & H1) H2]. tauto.
  - split; [intros [[H _] _]; discriminate|].
    intros [(u & H & _) _]. discriminate.
Qed.

Lemma filter_eq_all {A} (f : A -> bool) (l : list A) :
  filter f l = l -> forall x, In x l -> f x = true.
Proof.
  induction l as [|a l IH]; simpl; [intros _ x []|].
  destruct (f a) eqn:E.
  - intros [= H] x [<-|Hx]; auto.
  - intros H. pose proof (filter_length_le f l) as Hl.
    rewrite H in Hl. simpl in Hl. lia.
Qed.

(* ================================================================= *)
(** * The widget defaults on frames with missing cells *)

Lemma default_date_range_spec df :
  match Raw.default_date_range df with
  | Some dr =>
      exists lo hi,
        dr = (Raw.ts_date lo, Raw.ts_date hi)
        /\ Raw.series_max (map Raw.date df) = Some hi
        /\ In (Some hi) (map Raw.date df)
        /\ forall t, In (Some t) (map Raw.date df) -> ts_le lo t /\ ts_le t hi
  | None => forall r, In r df -> Raw.date r = None
  end.
Proof.
  unfold Raw.default_date_range.
  pose proof (series_min_spec (map Raw.date df)) as Hmin.
  pose proof (series_max_spec (map Raw.date df)) as Hmax.
  destruct (Raw.series_min (map Raw.date df)) as [lo|].
  - destruct (Raw.series_max (map Raw.date df)) as [hi|].
    + exists lo, hi. destruct Hmin as [_ Hmin], Hmax as [Hin Hmax].
      repeat split; auto.
    + intros r Hr. apply Hmax. now apply in_map.
  - intros r Hr. apply Hmin. now apply in_map.
Qed.

(** C10, as the claim states it: with the widget defaults the filter
    drops the row whose date cell is blank, and the row of the latest day
    whose date cell carries a time of day. *)
Lemma filter_full_extent_drops_rows :
  (Raw.default_date_range blank_date = Some (mkDate 2023 1 31, mkDate 2023 1 31)
   /\ Raw.filtered_df blank_date (mkDate 2023 1 31, mkDate 2023 1 31)
        (Raw.default_categories blank_date) (Raw.default_manufacturers blank_date)
      = firstn 1 blank_date
   /\ firstn 1 blank_date <> blank_date)
  /\ (Raw.default_date_range afternoon_date
      = Some (mkDate 2023 1 30, mkDate 2023 1 31)
      /\ Raw.filtered_df afternoon_date (mkDate 2023 1 30, mkDate 2023 1 31)
           (Raw.default_categories afternoon_date)
           (Raw.default_manufacturers afternoon_date)
         = firstn 1 afternoon_date
      /\ firstn 1 afternoon_date <> afternoon_date).
Proof.
  split; (split; [reflexivity|]; split; [reflexivity | discriminate]).
Qed.

(** C10, amended. With the widget defaults (the calendar dates of the
    earliest and latest timestamp, every category and manufacturer value
    present, the missing value among them) the filter returns the frame
    itself exactly when no date cell is blank and the latest timestamp is
    at midnight; so it does on every frame whose date cells all hold
    calendar dates. The defaults are undefined only when no row has a
    date. *)
Theorem filter_full_extent_dates (df : Raw.Frame) :
  (match Raw.default_date_range df with
   | Some dr =>
       Raw.filtered_df df dr (Raw.default_categories df)
                       (Raw.default_manufacturers df) = df
       <-> (forall r, In r df -> Raw.date r <> None)
           /\ (forall hi, Raw.series_max (map Raw.date df) = Some hi ->
                          Raw.ts_time hi = 0%N)
   | None => forall r, In r df -> Raw.date r = None
   end)
  /\ ((forall r, In r df -> exists d, Raw.date r = Some (Raw.midnight d)) ->
      df = []
      \/ exists dr,
           Raw.default_date_range df = Some dr
           /\ Raw.filtered_df df dr (Raw.default_categories df)
                              (Raw.default_manufacturers df) = df).
Proof.
  assert (Hmain :
    match Raw.default_date_range df with
    | Some dr =>
        Raw.filtered_df df dr (Raw.default_categories df)
                        (Raw.default_manufacturers df) = df
        <-> (forall r, In r df -> Raw.date r <> None)
            /\ (forall hi, Raw.series_max (map Raw.date df) = Some hi ->
                           Raw.ts_time hi = 0%N)
    | None => forall r, In r df -> Raw.date r = None
    end).
  { pose proof (default_date_range_spec df) as Hd.
    destruct (Raw.default_date_range df) as [dr|]; [|exact Hd].
    destruct Hd as (lo & hi & -> & Hmax & Hin & Hall).
    rewrite raw_filtered_filter. split.
    - intros Heq. pose proof (@filter_eq_all _ _ _ Heq) as Hk. split.
      + intros r Hr Hnone. specialize (Hk r Hr). apply raw_keeps_iff in Hk.
        destruct Hk as [(t & Ht & _) _]. congruence.
      + intros hi' Hhi'. rewrite Hmax in Hhi'. injection Hhi' as <-.
        apply in_map_iff in Hin. destruct Hin as (r & Hdate & Hr).
        specialize (Hk r Hr). apply raw_keeps_iff in Hk.
        destruct Hk as [(t & Ht & _ & Hle) _]. simpl in Hle.
        rewrite Hdate in Ht. injection Ht as <-.
        apply ts_le_spec in Hle. simpl in Hle.
        destruct Hle as [Hlt|[_ Hle]]; [|lia].
        rewrite date_compare_refl in Hlt. discriminate.
    - intros [Hpresent Hmid]. apply filter_all_true. intros r Hr.
      apply raw_keeps_iff. simpl.
      destruct (Raw.date r) as [t|] eqn:Ht; [|now apply Hpresent in Hr].
      assert (Hint : In (Some t) (map Raw.date df)).
      { rewrite <- Ht. now apply in_map. }
      destruct (Hall t Hint) as [Hlo Hhi].
      split; [exists t; split; [reflexivity|]; split|split].
      + eapply ts_le_trans; [apply ts_le_midnight | exact Hlo].
      + eapply ts_le_trans; [exact Hhi|].
        apply ts_le_spec. right. simpl. split; [reflexivity|].
        rewrite (Hmid hi Hmax). lia.
      + apply raw_unique_In. now apply in_map.
      + apply raw_unique_In. now apply in_map. }
  split; [exact Hmain|].
  intros Hcal. destruct df as [|r0 df]; [now left|]. right.
  pose proof (default_date_range_spec (r0 :: df)) as Hd.
  destruct (Raw.default_date_range (r0 :: df)) as [dr|].
  - exists dr. split; [reflexivity|]. apply Hmain. split.
    + intros r Hr. destruct (Hcal r Hr) as (d & ->). discriminate.
    + intros hi Hhi. destruct Hd as (lo & hi' & _ & Hmax & Hin & _).
      rewrite Hmax in Hhi. injection Hhi as <-.
      apply in_map_iff in Hin. destruct Hin as (r & Hdate & Hr).
      destruct (Hcal r Hr) as (d & Hd'). rewrite Hd' in Hdate.
      injection Hdate as <-. reflexivity.
  - destruct (Hcal r0 (or_introl eq_refl)) as (d & Hd').
    rewrite (Hd r0 (or_introl eq_refl)) in Hd'. discriminate.
Qed.

Lemma filter_full_extent_dates_witness :
  raw_frame hero_2022_2023 = []
  \/ exists dr,
       Raw.default_date_range (raw_frame hero_2022_2023) = Some dr
       /\ Raw.filtered_df (raw_frame hero_2022_2023) dr
            (Raw.default_categories (raw_frame hero_2022_2023))
            (Raw.default_manufacturers (raw_frame hero_2022_2023))
          = raw_frame hero_2022_2023.
Proof.
  apply (proj2 (filter_full_extent_dates (raw_frame hero_2022_2023))).
  intros r Hr. simpl in Hr.
  destruct Hr as [<-|[<-|[]]]; eexists; reflexivity.
Defined.

(* ================================================================= *)
(** * Grouped sums on frames with missing cells *)

Section RawGroups.
Context {K : Type}.
Variable cmp : K -> K -> comparison.
Variable key : Raw.Row -> option K.

Lemma raw_fold_mass df groups :
  Int64.wrap (Zsum (map snd
    (fold_left (fun g r =>
                  match key r with
                  | Some k => Pandas_groupby.accumulate cmp k (Raw.registrations r) g
                  | None => g
                  end) df groups)))
  = Int64.wrap (Zsum (map snd groups)
                + Zsum (map Raw.registrations (Raw.with_key key df))).
Proof.
  revert groups. unfold Raw.with_key.
  induction df as [|r df IH]; intros groups; simpl.
  - f_equal. lia.
  - rewrite IH. destruct (key r) as [k|]; simpl; [|reflexivity].
    rewrite <- wrap_add_l, accumulate_mass, wrap_add_l. f_equal. lia.
Qed.

(** The grouped frame carries the total of the rows that have a key. *)
Lemma raw_groupby_mass df :
  group_total (Raw.groupby_sum cmp key df)
  = Raw.total_reg (Raw.with_key key df).
Proof.
  unfold group_total, Raw.total_reg, Raw.groupby_sum. rewrite !sum_wrap.
  rewrite raw_fold_mass. reflexivity.
Qed.

Lemma with_key_all df :
  (forall r, In r df -> key r <> None) -> Raw.with_key key df = df.
Proof.
  intros H. unfold Raw.with_key. apply filter_all_true. intros r Hr.
  specialize (H r Hr). destruct (key r); [reflexivity | contradiction].
Qed.

Lemma raw_fold_exact df groups :
  Forall (fun r => 0 <= Raw.registrations r) df ->
  Forall (fun s => 0 <= s) (map snd groups) ->
  Zsum (map snd groups) + Zsum (map Raw.registrations df) < Int64.half ->
  Zsum (map snd
    (fold_left (fun g r =>
                  match key r with
                  | Some k => Pandas_groupby.accumulate cmp k (Raw.registrations r) g
                  | None => g
                  end) df groups))
  = Zsum (map snd groups) + Zsum (map Raw.registrations (Raw.with_key key df)).
Proof.
  intros Hdf. revert groups. unfold Raw.with_key.
  induction Hdf as [|r df Hr Hdf IH]; intros groups Hpos Hlt; simpl in *.
  - lia.
  - assert (Hrest : 0 <= Zsum (map Raw.registrations df)).
    { clear - Hdf. induction Hdf; simpl; lia. }
    destruct (key r) as [k|]; simpl.
    + destruct (@accumulate_exact _ cmp k (Raw.registrations r) groups Hr Hpos)
        as [H1 H2]; [lia|].
      rewrite IH; [lia | assumption | lia].
    + rewrite IH; [lia | assumption | lia].
Qed.

Lemma raw_groupby_exact df :
  Forall (fun r => 0 <= Raw.registrations r) df ->
  Zsum (map Raw.registrations df) < Int64.half ->
  Zsum (map snd (Raw.groupby_sum cmp key df))
  = Zsum (map Raw.registrations (Raw.with_key key df)).
Proof.
  intros Hpos Hlt. unfold Raw.groupby_sum.
  rewrite raw_fold_exact; simpl; auto.
Qed.

End RawGroups.

Lemma raw_filtered_dates df dr cats mans r :
  In r (Raw.filtered_df df dr cats mans) -> Raw.date r <> None.
Proof.
  rewrite raw_filtered_filter, filter_In. intros [_ Hk].
  apply raw_keeps_iff in Hk. destruct Hk as [(t & Ht & _) _]. congruence.
Qed.

(** C6, as the claim states it: a row with a blank manufacturer cell (or
    a blank category cell) stays selected by the widget defaults and
    counts in the total, but belongs to no group, so the market-share
    (monthly-trend) totals add up to 1000 against a total of 2100. *)
Lemma aggregation_mass_blank_key :
  (Raw.default_date_range blank_manufacturer
   = Some (mkDate 2023 1 31, mkDate 2023 1 31)
   /\ Raw.filtered_df blank_manufacturer (mkDate 2023 1 31, mkDate 2023 1 31)
        (Raw.default_categories blank_manufacturer)
        (Raw.default_manufacturers blank_manufacturer)
      = blank_manufacturer
   /\ Raw.total_reg blank_manufacturer = 2100
   /\ group_total (Raw.manu_share blank_manufacturer) = 1000)
  /\ (Raw.default_date_range blank_category
      = Some (mkDate 2023 1 31, mkDate 2023 1 31)
      /\ Raw.filtered_df blank_category (mkDate 2023 1 31, mkDate 2023 1 31)
           (Raw.default_categories blank_category)
           (Raw.default_manufacturers blank_category)
         = blank_category
      /\ Raw.total_reg blank_category = 2100
      /\ group_total (Raw.monthly blank_category) = 1000).
Proof. repeat split. Qed.

(** C6, amended. Each grouped projection carries the total of the rows
    whose key is present: market share that of the rows with a
    manufacturer, monthly trend that of the rows with a date and a
    category. So market share conserves the total of a frame in which no
    manufacturer cell is blank, and monthly trend that of a filtered frame
    in which no category cell is blank (a filtered frame has no blank
    date). When the counts are non-negative and the frame's exact sum fits
    int64, the same holds of the exact sums. *)
Theorem aggregation_mass_present (df : Raw.Frame) :
  (group_total (Raw.manu_share df)
   = Raw.total_reg (Raw.with_key Raw.manufacturer df)
   /\ group_total (Raw.monthly df)
      = Raw.total_reg (Raw.with_key Raw.date_category df))
  /\ ((forall r, In r df -> Raw.manufacturer r <> None) ->
      group_total (Raw.manu_share df) = Raw.total_reg df)
  /\ ((forall r, In r df -> Raw.date r <> None /\ Raw.category r <> None) ->
      group_total (Raw.monthly df) = Raw.total_reg df)
  /\ (forall dr cats mans,
        (forall r, In r (Raw.filtered_df df dr cats mans) ->
                   Raw.category r <> None) ->
        group_total (Raw.monthly (Raw.filtered_df df dr cats mans))
        = Raw.total_reg (Raw.filtered_df df dr cats mans))
  /\ (Forall (fun r => 0 <= Raw.registrations r) df ->
      Zsum (map Raw.registrations df) < Int64.half ->
      Zsum (map snd (Raw.manu_share df))
      = Zsum (map Raw.registrations (Raw.with_key Raw.manufacturer df))
      /\ Zsum (map snd (Raw.monthly df))
         = Zsum (map Raw.registrations (Raw.with_key Raw.date_category df))
      /\ Raw.total_reg df = Zsum (map Raw.registrations df)).
Proof.
  assert (Hmonthly : forall f : Raw.Frame,
            (forall r, In r f -> Raw.date r <> None /\ Raw.category r <> None) ->
            group_total (Raw.monthly f) = Raw.total_reg f).
  { intros f H. unfold Raw.monthly. rewrite raw_groupby_mass, with_key_all;
      [reflexivity|].
    intros r Hr. destruct (H r Hr) as [Hd Hc]. unfold Raw.date_category.
    destruct (Raw.date r); [|contradiction].
    destruct (Raw.category r); [discriminate | contradiction]. }
  split; [split; apply raw_groupby_mass|].
  split.
  { intros H. unfold Raw.manu_share.
    rewrite raw_groupby_mass, with_key_all; auto. }
  split; [apply Hmonthly|].
  split.
  { intros dr cats mans H. apply Hmonthly. intros r Hr. split; [|now apply H].
    eapply raw_filtered_dates; eauto. }
  intros Hpos Hlt. split; [|split].
  - now apply raw_groupby_exact.
  - now apply raw_groupby_exact.
  - unfold Raw.total_reg. rewrite sum_wrap. apply wrap_small.
    assert (0 <= Zsum (map Raw.registrations df)).
    { clear - Hpos. induction Hpos; simpl; lia. }
    unfold Int64.half in *. lia.
Qed.

Lemma aggregation_mass_present_witness :
  group_total (Raw.manu_share (raw_frame totals_2019_2020))
  = Raw.total_reg (raw_frame totals_2019_2020).
Proof.
  apply (proj1 (proj2 (aggregation_mass_present (raw_frame totals_2019_2020)))).
  intros r Hr. simpl in Hr.
  destruct Hr as [<-|[<-|[<-|[<-|[]]]]]; discriminate.
Defined.

(* ================================================================= *)
(** * Frames without missing cells among the frames of a file *)

Lemma midnight_leb a b :
  Raw.ts_leb (Raw.midnight a) (Raw.midnight b) = date_leb a b.
Proof.
  unfold Raw.ts_leb, Raw.ts_compare, date_leb. simpl.
  destruct (date_compare a b); reflexivity.
Qed.

Lemma raw_mem_Some v values :
  Raw.mem (Some v) (map Some values) = Pandas.mem v values.
Proof.
  unfold Raw.mem, Pandas.mem.
  induction values as [|x l IH]; simpl; [reflexivity | now rewrite IH].
Qed.

(** On a frame without missing cells the filter, the total and the
    grouped frames are those of the sections above. *)
Lemma raw_frame_filtered df dr cats mans :
  Raw.filtered_df (raw_frame df) dr (map Some cats) (map Some mans)
  = raw_frame (filtered_df df dr cats mans).
Proof.
  rewrite raw_filtered_filter, filtered_df_filter. unfold raw_frame.
  induction df as [|r df IH]; simpl; [reflexivity|].
  replace (raw_keeps dr (map Some cats) (map Some mans) (raw_row r))
    with (keeps dr cats mans r).
  - destruct (keeps dr cats mans r); simpl; now rewrite IH.
  - unfold raw_keeps, keeps. simpl.
    now rewrite !midnight_leb, !raw_mem_Some.
Qed.

Lemma raw_frame_total df : Raw.total_reg (raw_frame df) = total_reg df.
Proof.
  unfold Raw.total_reg, total_reg, Pandas.column, raw_frame.
  rewrite map_map. reflexivity.
Qed.

Lemma raw_frame_groupby {K} (cmp : K -> K -> comparison) (key : Row -> K)
    (rkey : Raw.Row -> option K) df :
  (forall r, rkey (raw_row r) = Some (key r)) ->
  Raw.groupby_sum cmp rkey (raw_frame df) = Pandas_groupby.groupby_sum cmp key df.
Proof.
  intros Hkey. unfold Raw.groupby_sum, Pandas_groupby.groupby_sum, raw_frame.
  generalize (@nil (K * Z)) as g.
  induction df as [|r df IH]; intros g; simpl; [reflexivity|].
  rewrite Hkey. apply IH.
Qed.

Lemma raw_frame_manu_share df : Raw.manu_share (raw_frame df) = manu_share df.
Proof. apply raw_frame_groupby. reflexivity. Qed.
